(** * Data stewards platform: catalog, data chat and team chat handlers

    A shallow embedding of the event handlers of three React components,
    [DataSourceManager], [DataChatInterface] and [ChatWorkspace], together
    with the properties of the data-source catalog and of the two chat
    transcripts.

    Conventions of the embedding.
    - A JavaScript string is a [string]: one character per UTF-16 code unit,
      for code units in the range 0..255 (Latin-1), where
      [String.prototype.toLowerCase] acts unit by unit.
    - A JavaScript number that holds a count, a size or a clock reading is
      a [Z].
    - A handler is a computation in the monad [M]: it reads and writes the
      store of its component (React state, local storage, console, the
      list of requests sent to the backend client) and may throw.
    - The backend client is external. What it answers to the calls of one
      invocation of a handler is an argument of that handler (a record of
      answers, in program order); every call is appended to the request
      list of the store, so that the number of requests can be counted.
    - A handler runs from its start to its end with no other event in
      between: an [await] is the point where the answer of the world comes
      in. A closure given to [setTimeout] is a handler of its own, run by
      the event loop when it is due. *)

From Stdlib Require Import ZArith Ascii String DecimalString Lia.
From Stdlib Require Import DecimalZ.
From stdpp Require Import base option list strings gmap.

Local Open Scope Z_scope.

(** ** JavaScript primitives used by the handlers *)

Module JS.

(** Code units 65..90 (A-Z) and 192..222 except 215 (the Latin-1 capital
    letters) have a lower-case partner 32 positions up. *)
Definition lower_unit (c : ascii) : ascii :=
  let n := N_of_ascii c in
  if ((65 <=? n)%N && (n <=? 90)%N)
     || ((192 <=? n)%N && (n <=? 222)%N && negb (n =? 215)%N)
  then ascii_of_N (n + 32)
  else c.

Fixpoint toLowerCase (s : string) : string :=
  match s with
  | EmptyString => EmptyString
  | String c s' => String (lower_unit c) (toLowerCase s')
  end.

(** [startsWith s q]: [q] is an initial segment of [s]. *)
Fixpoint startsWith (s q : string) {struct q} : bool :=
  match q, s with
  | EmptyString, _ => true
  | String _ _, EmptyString => false
  | String a q', String b s' => Ascii.eqb a b && startsWith s' q'
  end.

(** [includes s q] is [s.includes(q)]: some position of [s] starts with [q]. *)
Fixpoint includes (s q : string) : bool :=
  startsWith s q ||
  match s with
  | EmptyString => false
  | String _ s' => includes s' q
  end.

(** White space and line terminators of the language, below 256. *)
Definition is_space (c : ascii) : bool :=
  let n := N_of_ascii c in
  ((9 <=? n)%N && (n <=? 13)%N) || (n =? 32)%N || (n =? 160)%N.

Fixpoint trimStart (s : string) : string :=
  match s with
  | EmptyString => EmptyString
  | String c s' => if is_space c then trimStart s' else s
  end.

Fixpoint trimEnd (s : string) : string :=
  match s with
  | EmptyString => EmptyString
  | String c s' =>
      match trimEnd s' with
      | EmptyString => if is_space c then EmptyString else String c EmptyString
      | t => String c t
      end
  end.

Definition trim (s : string) : string := trimEnd (trimStart s).

(** Truthiness of a string and of a number. *)
Definition truthy (s : string) : bool :=
  match s with EmptyString => false | String _ _ => true end.

Definition truthyZ (n : Z) : bool := negb (n =? 0).

(** [split sep s] is [s.split(sep)] for a one-unit separator. *)
Fixpoint split (sep : ascii) (s : string) : list string :=
  match s with
  | EmptyString => [EmptyString]
  | String c s' =>
      if Ascii.eqb c sep then EmptyString :: split sep s'
      else match split sep s' with
           | h :: t => String c h :: t
           | [] => [String c EmptyString]
           end
  end.

(** [pop] returns the last element of an array, if any. *)
Definition pop {A} (l : list A) : option A := last l.

(** [substring 0 n] and [join]. *)
Definition substring0 (n : nat) (s : string) : string := String.substring 0 n s.

Definition join (sep : string) (l : list string) : string := String.concat sep l.

(** Decimal rendering of an integral number. *)
Definition toString (n : Z) : string := NilEmpty.string_of_int (Z.to_int n).

(** The double quote, as a one-unit string. *)
Definition dq : string := String (ascii_of_nat 34) EmptyString.

(** The line feed, as a one-unit string. *)
Definition nl : string := String (ascii_of_nat 10) EmptyString.

End JS.

(** ** Data model *)

Inductive DataType := csv | json | excel | database.

Inductive Status := processing | ready | error.

Inductive Author := user | ai | system.

Module User.
(** The signed-in user as the handlers use it. *)
Record t := { id : string; displayName : option string; email : string }.
End User.

Module File.
(** The part of a browser [File] that the upload handler reads. *)
Record t := { name : string; size : Z }.
End File.

Module DataSource.
Record t := {
  id : string;
  name : string;
  type : DataType;
  size : Z;
  uploadedAt : Z;
  status : Status;
  recordCount : option Z;
  columns : option (list string);
  description : option string;
  fileUrl : option string;
  userId : string
}.
End DataSource.

Module ChatMessage.
(** The [analysis] payload of a message; the untyped [charts] are left out. *)
Record Payload := { insights : option (list string); summary : option string }.

(** [type] is [user] or [ai]. *)
Record t := {
  id : string;
  content : string;
  type : Author;
  timestamp : Z;
  dataSource : option DataSource.t;
  analysis : option Payload
}.
End ChatMessage.

Module Message.
Record t := {
  id : string;
  content : string;
  userId : string;
  userName : string;
  timestamp : Z;
  type : Author
}.
End Message.

Module Channel.
Record t := {
  id : string;
  name : string;
  description : string;
  memberCount : Z;
  isActive : bool
}.
End Channel.

(** The object that the structured analysis returns. *)
Module Analysis.
Record t := {
  recordCount : Z;
  columns : list string;
  description : string;
  dataQuality : option string
}.
End Analysis.

(** What content extraction returns: a text, or the chunks of a text. *)
Inductive Extracted := Text (s : string) | Chunks (l : list string).

(** ** The world outside the components *)

(** A thrown value or the reason of a rejected promise. *)
Inductive Exn := Failure (reason : string).

(** The result of a computation or the answer to a call. *)
Inductive Res (A : Type) := Ok (a : A) | Throw (e : Exn).
Arguments Ok {A} a.
Arguments Throw {A} e.

(** The calls to the backend client, with the arguments that vary; the
    result schema passed to [generateObject] is a constant of the source. *)
Inductive Request :=
| AuthMe
| StorageUpload (file : File.t) (path : string) (upsert : bool)
| ExtractFromBlob (file : File.t) (chunking : bool) (chunkSize : Z)
| ExtractFromUrl (url : string)
| GenerateObject (prompt : string)
| GenerateText (prompt : string) (maxTokens : Z)
| RealtimePublish (topic kind content type : string) (userId : string)
    (displayName : string).

(** The closures handed to [setTimeout] by the team chat. *)
Inductive Timer :=
| ShowTyping (userMessage : string)
| Respond (userMessage : string).

(** Local storage holds one serialised collection per key; the collection
    stands for its serialisation (JSON with dates as ISO strings), which
    [loadDataSources] reads back to the same collection. [time] is the clock
    of the event loop in milliseconds, and a pending timer is kept with the
    time at which it is due. *)
Record World := {
  localStorage : gmap string (list DataSource.t);
  console : list (string * Exn);
  requests : list Request;
  timers : list (Z * Timer);
  time : Z
}.

(** A store: the state of a component tree and the world. *)
Record Store (C : Type) := { comp : C; world : World }.
Arguments comp {C} s.
Arguments world {C} s.

(** ** The monad of handlers *)

Definition M (C A : Type) : Type := Store C → Res A * Store C.

Definition ret {C A} (a : A) : M C A := λ σ, (Ok a, σ).

Definition bind {C A B} (m : M C A) (k : A → M C B) : M C B :=
  λ σ, match m σ with
       | (Ok a, σ') => k a σ'
       | (Throw e, σ') => (Throw e, σ')
       end.

Definition throw {C A} (e : Exn) : M C A := λ σ, (Throw e, σ).

(** [try m catch h]. *)
Definition tryCatch {C A} (m : M C A) (h : Exn → M C A) : M C A :=
  λ σ, match m σ with
       | (Ok a, σ') => (Ok a, σ')
       | (Throw e, σ') => h e σ'
       end.

(** [try m finally f]: [f] runs in both cases; the outcome is that of [m]
    unless [f] throws. *)
Definition tryFinally {C A} (m : M C A) (f : M C unit) : M C A :=
  λ σ, match m σ with
       | (r, σ') => match f σ' with
                    | (Ok _, σ'') => (r, σ'')
                    | (Throw e, σ'') => (Throw e, σ'')
                    end
       end.

Definition gets {C A} (f : C → A) : M C A := λ σ, (Ok (f (comp σ)), σ).

Definition modify {C} (f : C → C) : M C unit :=
  λ σ, (Ok tt, {| comp := f (comp σ); world := world σ |}).

Definition getsWorld {C A} (f : World → A) : M C A := λ σ, (Ok (f (world σ)), σ).

Definition modifyWorld {C} (f : World → World) : M C unit :=
  λ σ, (Ok tt, {| comp := comp σ; world := f (world σ) |}).

(** The store and the outcome of a run. *)
Definition exec {C A} (m : M C A) (σ : Store C) : Store C := snd (m σ).

Definition outcome {C A} (m : M C A) (σ : Store C) : Res A := fst (m σ).

Notation "'let*' x ':=' m 'in' k" := (bind m (λ x, k))
  (at level 10, x name, m at level 100, k at level 200).
Notation "m ';;' k" := (bind m (λ _, k))
  (at level 100, k at level 200, right associativity).

(** Record update of the world, one function per field. *)
Definition with_localStorage (v : gmap string (list DataSource.t)) (w : World) : World :=
  {| localStorage := v; console := console w; requests := requests w;
     timers := timers w; time := time w |}.

Definition with_console (v : list (string * Exn)) (w : World) : World :=
  {| localStorage := localStorage w; console := v; requests := requests w;
     timers := timers w; time := time w |}.

Definition with_requests (v : list Request) (w : World) : World :=
  {| localStorage := localStorage w; console := console w; requests := v;
     timers := timers w; time := time w |}.

Definition with_timers (v : list (Z * Timer)) (w : World) : World :=
  {| localStorage := localStorage w; console := console w; requests := requests w;
     timers := v; time := time w |}.

Definition with_time (v : Z) (w : World) : World :=
  {| localStorage := localStorage w; console := console w; requests := requests w;
     timers := timers w; time := v |}.

(** [await] of a call to the backend client: the request is recorded, and the
    answer of the world is returned or thrown. *)
Definition call {C A} (r : Request) (answer : Res A) : M C A :=
  modifyWorld (λ w, with_requests (requests w ++ [r]) w) ;;
  match answer with Ok a => ret a | Throw e => throw e end.

Definition console_error {C} (label : string) (e : Exn) : M C unit :=
  modifyWorld (λ w, with_console (console w ++ [(label, e)]) w).

Definition localStorage_setItem {C} (key : string) (v : list DataSource.t) : M C unit :=
  modifyWorld (λ w, with_localStorage (<[key := v]> (localStorage w)) w).

Definition localStorage_getItem {C} (key : string) : M C (option (list DataSource.t)) :=
  getsWorld (λ w, localStorage w !! key).

(** [setTimeout f delay]: [f] becomes due [delay] milliseconds from now. *)
Definition setTimeout {C} (f : Timer) (delay : Z) : M C unit :=
  modifyWorld (λ w, with_timers (timers w ++ [(time w + delay, f)]) w).

(** The pending timer that is due first (the oldest one among equals), and
    the timers that remain. *)
Fixpoint nextTimer (l : list (Z * Timer)) : option ((Z * Timer) * list (Z * Timer)) :=
  match l with
  | [] => None
  | t :: l' =>
      match nextTimer l' with
      | None => Some (t, [])
      | Some (t', rest) =>
          if fst t <=? fst t' then Some (t, l') else Some (t', t :: rest)
      end
  end.

(** Takes the next timer off the queue and moves the clock to its due time. *)
Definition takeTimer {C} : M C (option Timer) :=
  let* pending := getsWorld timers in
  match nextTimer pending with
  | None => ret None
  | Some ((due, f), rest) =>
      modifyWorld (λ w, with_time (Z.max (time w) due) (with_timers rest w)) ;;
      ret (Some f)
  end.

(** [!x] for a value that may be absent. *)
Definition absent {A} (x : option A) : bool :=
  match x with Some _ => false | None => true end.

(** [x || d] on strings, where [x] may be absent. *)
Definition orString (x : option string) (d : string) : string :=
  match x with
  | Some s => if JS.truthy s then s else d
  | None => d
  end.

(** ** The data chat page: [DataChat], [DataSourceManager], [DataChatInterface] *)

Module DataChat.

(** The state of the page and of its two children. [selectedDataSource]
    belongs to the page; it is the [selectedDataSource] prop of the manager
    and the [dataSource] prop of the chat interface, and the page passes its
    setter as [onDataSourceSelect]. The next five fields belong to
    [DataSourceManager], the last four to [DataChatInterface]. *)
Record State := {
  selectedDataSource : option DataSource.t;
  dataSources : list DataSource.t;
  loading : bool;
  uploading : bool;
  searchQuery : string;
  showUploadDialog : bool;
  messages : list ChatMessage.t;
  newMessage : string;
  isAiTyping : bool;
  dataContent : string
}.

Definition initial : State :=
  {| selectedDataSource := None; dataSources := []; loading := true;
     uploading := false; searchQuery := EmptyString; showUploadDialog := false;
     messages := []; newMessage := EmptyString; isAiTyping := false;
     dataContent := EmptyString |}.

(** Record update, one function per field. *)
Definition with_selectedDataSource (v : option DataSource.t) (s : State) : State :=
  {| selectedDataSource := v; dataSources := dataSources s;
     loading := loading s; uploading := uploading s;
     searchQuery := searchQuery s; showUploadDialog := showUploadDialog s;
     messages := messages s; newMessage := newMessage s;
     isAiTyping := isAiTyping s; dataContent := dataContent s |}.

Definition with_dataSources (v : list DataSource.t) (s : State) : State :=
  {| selectedDataSource := selectedDataSource s; dataSources := v;
     loading := loading s; uploading := uploading s;
     searchQuery := searchQuery s; showUploadDialog := showUploadDialog s;
     messages := messages s; newMessage := newMessage s;
     isAiTyping := isAiTyping s; dataContent := dataContent s |}.

Definition with_loading (v : bool) (s : State) : State :=
  {| selectedDataSource := selectedDataSource s;
     dataSources := dataSources s; loading := v; uploading := uploading s;
     searchQuery := searchQuery s; showUploadDialog := showUploadDialog s;
     messages := messages s; newMessage := newMessage s;
     isAiTyping := isAiTyping s; dataContent := dataContent s |}.

Definition with_uploading (v : bool) (s : State) : State :=
  {| selectedDataSource := selectedDataSource s;
     dataSources := dataSources s; loading := loading s; uploading := v;
     searchQuery := searchQuery s; showUploadDialog := showUploadDialog s;
     messages := messages s; newMessage := newMessage s;
     isAiTyping := isAiTyping s; dataContent := dataContent s |}.

Definition with_searchQuery (v : string) (s : State) : State :=
  {| selectedDataSource := selectedDataSource s;
     dataSources := dataSources s; loading := loading s;
     uploading := uploading s; searchQuery := v;
     showUploadDialog := showUploadDialog s; messages := messages s;
     newMessage := newMessage s; isAiTyping := isAiTyping s;
     dataContent := dataContent s |}.

Definition with_showUploadDialog (v : bool) (s : State) : State :=
  {| selectedDataSource := selectedDataSource s;
     dataSources := dataSources s; loading := loading s;
     uploading := uploading s; searchQuery := searchQuery s;
     showUploadDialog := v; messages := messages s;
     newMessage := newMessage s; isAiTyping := isAiTyping s;
     dataContent := dataContent s |}.

Definition with_messages (v : list ChatMessage.t) (s : State) : State :=
  {| selectedDataSource := selectedDataSource s;
     dataSources := dataSources s; loading := loading s;
     uploading := uploading s; searchQuery := searchQuery s;
     showUploadDialog := showUploadDialog s; messages := v;
     newMessage := newMessage s; isAiTyping := isAiTyping s;
     dataContent := dataContent s |}.

Definition with_newMessage (v : string) (s : State) : State :=
  {| selectedDataSource := selectedDataSource s;
     dataSources := dataSources s; loading := loading s;
     uploading := uploading s; searchQuery := searchQuery s;
     showUploadDialog := showUploadDialog s; messages := messages s;
     newMessage := v; isAiTyping := isAiTyping s;
     dataContent := dataContent s |}.

Definition with_isAiTyping (v : bool) (s : State) : State :=
  {| selectedDataSource := selectedDataSource s;
     dataSources := dataSources s; loading := loading s;
     uploading := uploading s; searchQuery := searchQuery s;
     showUploadDialog := showUploadDialog s; messages := messages s;
     newMessage := newMessage s; isAiTyping := v;
     dataContent := dataContent s |}.

Definition with_dataContent (v : string) (s : State) : State :=
  {| selectedDataSource := selectedDataSource s;
     dataSources := dataSources s; loading := loading s;
     uploading := uploading s; searchQuery := searchQuery s;
     showUploadDialog := showUploadDialog s; messages := messages s;
     newMessage := newMessage s; isAiTyping := isAiTyping s;
     dataContent := v |}.

(** The setters of the [useState] hooks. *)
Definition setSelectedDataSource (v : DataSource.t) : M State unit :=
  modify (with_selectedDataSource (Some v)).

Definition setDataSources (v : list DataSource.t) : M State unit :=
  modify (with_dataSources v).

Definition setLoading (v : bool) : M State unit := modify (with_loading v).

Definition setUploading (v : bool) : M State unit := modify (with_uploading v).

Definition setSearchQuery (v : string) : M State unit := modify (with_searchQuery v).

Definition setShowUploadDialog (v : bool) : M State unit :=
  modify (with_showUploadDialog v).

(** [setMessages] takes the updater function, as in [setMessages(prev => ...)];
    a plain value is the constant updater. *)
Definition setMessages (f : list ChatMessage.t → list ChatMessage.t) : M State unit :=
  modify (λ s, with_messages (f (messages s)) s).

Definition setNewMessage (v : string) : M State unit := modify (with_newMessage v).

Definition setIsAiTyping (v : bool) : M State unit := modify (with_isAiTyping v).

Definition setDataContent (v : string) : M State unit := modify (with_dataContent v).

(** *** DataSourceManager *)

Definition storageKey (u : User.t) : string := "dataSources_" +:+ User.id u.

(** [loadDataSources]: [me] is the answer to the user lookup. A stored
    collection is read back as it was written; a missing entry gives the
    empty collection. *)
Definition loadDataSources (me : Res User.t) : M State unit :=
  tryFinally
    (tryCatch
       (let* u := call AuthMe me in
        let* stored := localStorage_getItem (storageKey u) in
        let sources := match stored with Some l => l | None => [] end in
        setDataSources sources)
       (λ e, console_error "Failed to load data sources:" e))
    (setLoading false).

Definition saveDataSources (sources : list DataSource.t) (me : Res User.t) : M State unit :=
  tryCatch
    (let* u := call AuthMe me in
     localStorage_setItem (storageKey u) sources)
    (λ e, console_error "Failed to save data sources:" e).

(** The answers of the world to one run of [handleFileUpload], in program
    order; [now_id] and [now_date] are the two readings of the clock. *)
Record UploadAnswers := {
  me : Res User.t;
  uploaded : Res string;
  extracted : Res Extracted;
  analysed : Res Analysis.t;
  now_id : Z;
  now_date : Z;
  save_me : Res User.t
}.

(** [file.name.split('.').pop()?.toLowerCase()]. *)
Definition fileType (file : File.t) : option string :=
  JS.toLowerCase <$> JS.pop (JS.split "." (File.name file)).

Definition dataType (file : File.t) : DataType :=
  let fileType := fileType file in
  if decide (fileType = Some "json") then json
  else if decide (fileType = Some "xlsx" ∨ fileType = Some "xls") then excel
  else if decide (fileType = Some "csv") then csv
  else csv.

Definition contentPreview (extractedText : Extracted) : string :=
  match extractedText with
  | Chunks l => JS.join JS.nl (take 3 l)
  | Text s => JS.substring0 1000 s
  end.

Definition analysisPrompt (file : File.t) (extractedText : Extracted) : string :=
  "Analyze this data file content and extract key information:
        
        File: " +:+ File.name file +:+ "
        Content preview: " +:+ contentPreview extractedText +:+ "
        
        Please provide:
        1. Estimated record count
        2. Column names (if structured data)
        3. Brief description of the data
        4. Data quality assessment".

Definition newDataSource (file : File.t) (u : User.t) (publicUrl : string)
    (analysisResult : Analysis.t) (now_id now_date : Z) : DataSource.t :=
  {| DataSource.id := "ds_" +:+ JS.toString now_id;
     DataSource.name := File.name file;
     DataSource.type := dataType file;
     DataSource.size := File.size file;
     DataSource.uploadedAt := now_date;
     DataSource.status := ready;
     DataSource.recordCount := Some (Analysis.recordCount analysisResult);
     DataSource.columns := Some (Analysis.columns analysisResult);
     DataSource.description := Some (Analysis.description analysisResult);
     DataSource.fileUrl := Some publicUrl;
     DataSource.userId := User.id u |}.

(** [handleFileUpload]: [files0] is [event.target.files?.[0]]. The variable
    [dataSources] of the handler is the collection of the render in which
    the handler was created, read here when the handler starts. *)
Definition handleFileUpload
    (onDataSourceSelect : option (DataSource.t → M State unit))
    (files0 : option File.t) (w : UploadAnswers) : M State unit :=
  match files0 with
  | None => ret tt
  | Some file =>
    let* dataSources := gets dataSources in
    setUploading true ;;
    tryFinally
      (tryCatch
         (let* u := call AuthMe (me w) in
          let* publicUrl :=
            call (StorageUpload file
                    ("data-sources/" +:+ User.id u +:+ "/" +:+ File.name file) true)
                 (uploaded w) in
          let* extractedText := call (ExtractFromBlob file true 2000) (extracted w) in
          let* analysisResult :=
            call (GenerateObject (analysisPrompt file extractedText)) (analysed w) in
          let newDataSource :=
            newDataSource file u publicUrl analysisResult (now_id w) (now_date w) in
          let updatedSources := newDataSource :: dataSources in
          setDataSources updatedSources ;;
          saveDataSources updatedSources (save_me w) ;;
          setShowUploadDialog false ;;
          match onDataSourceSelect with
          | Some select => select newDataSource
          | None => ret tt
          end)
         (λ e, console_error "Failed to upload data source:" e))
      (setUploading false)
  end.

Definition deleteDataSource (id : string) (save_me : Res User.t) : M State unit :=
  let* dataSources := gets dataSources in
  tryCatch
    (let updatedSources :=
       List.filter (λ ds, negb (String.eqb (DataSource.id ds) id)) dataSources in
     setDataSources updatedSources ;;
     saveDataSources updatedSources save_me)
    (λ e, console_error "Failed to delete data source:" e).

(** [a?.m()] in a condition: an absent [a] counts as false. *)
Definition optTest {A} (o : option A) (p : A → bool) : bool :=
  match o with Some a => p a | None => false end.

Definition filteredDataSources (s : State) : list DataSource.t :=
  List.filter
    (λ ds,
       JS.includes (JS.toLowerCase (DataSource.name ds))
                   (JS.toLowerCase (searchQuery s))
       || optTest (DataSource.description ds)
            (λ d, JS.includes (JS.toLowerCase d) (JS.toLowerCase (searchQuery s))))
    (dataSources s).

(** *** DataChatInterface *)

Definition typeName (t : DataType) : string :=
  match t with
  | csv => "csv" | json => "json" | excel => "excel" | database => "database"
  end.

(** The bullet of the welcome text, kept as the bytes of its encoding. *)
Definition bullet : string := "•".

(** The answers of the world to one run of the effect on [dataSource]:
    the extracted content, the reading of the clock, and the rendering of
    numbers in the locale of the browser. *)
Record EffectAnswers := {
  content : Res Extracted;
  effect_now : Z;
  toLocaleString : Z → string
}.

Definition loadDataContent (dataSource : option DataSource.t)
    (answer : Res Extracted) : M State unit :=
  match dataSource ≫= DataSource.fileUrl with
  | None => ret tt
  | Some url =>
    if negb (JS.truthy url) then ret tt
    else
      tryCatch
        (let* content := call (ExtractFromUrl url) answer in
         setDataContent
           (match content with Chunks l => JS.join JS.nl l | Text s => s end))
        (λ e, console_error "Failed to load data content:" e)
  end.

Definition welcomeContent (dataSource : DataSource.t)
    (toLocaleString : Z → string) : string :=
  "Hello! I'm ready to help you analyze " +:+ JS.dq +:+
  DataSource.name dataSource +:+ JS.dq +:+ ". This dataset contains " +:+
  orString (toLocaleString <$> DataSource.recordCount dataSource) "unknown" +:+
  " records with " +:+
  JS.toString
    (match DataSource.columns dataSource with
     | Some l => Z.of_nat (length l)
     | None => 0
     end) +:+
  " columns.

Here are some things you can ask me:
" +:+ bullet +:+ " " +:+ JS.dq +:+ "Summarize this data" +:+ JS.dq +:+ "
" +:+ bullet +:+ " " +:+ JS.dq +:+ "What are the key insights?" +:+ JS.dq +:+ "
" +:+ bullet +:+ " " +:+ JS.dq +:+ "Show me data quality issues" +:+ JS.dq +:+ "
" +:+ bullet +:+ " " +:+ JS.dq +:+ "Find patterns or trends" +:+ JS.dq +:+ "
" +:+ bullet +:+ " " +:+ JS.dq +:+ "Generate a report" +:+ JS.dq +:+ "

What would you like to know about your data?".

Definition welcomeMessage (dataSource : DataSource.t) (w : EffectAnswers) : ChatMessage.t :=
  {| ChatMessage.id := "welcome";
     ChatMessage.content := welcomeContent dataSource (toLocaleString w);
     ChatMessage.type := ai;
     ChatMessage.timestamp := effect_now w;
     ChatMessage.dataSource := Some dataSource;
     ChatMessage.analysis := None |}.

Definition initializeChat (dataSource : option DataSource.t) (w : EffectAnswers) : M State unit :=
  match dataSource with
  | None => ret tt
  | Some dataSource => setMessages (λ _, [welcomeMessage dataSource w])
  end.

(** The body of the effect with dependency [dataSource]; it runs after a
    render in which the prop differs from that of the previous render. *)
Definition dataSourceEffect (dataSource : option DataSource.t) (w : EffectAnswers) : M State unit :=
  match dataSource with
  | Some _ => loadDataContent dataSource (content w) ;; initializeChat dataSource w
  | None => ret tt
  end.

(** The answers of the world to one run of [sendMessage]: [now n] is the
    reading of the clock number [n], and [completion] the answer to the
    completion request. *)
Record AskAnswers := { now : nat → Z; completion : Res string }.

Definition recordsText (dataSource : DataSource.t) : string :=
  match DataSource.recordCount dataSource with
  | Some n => if JS.truthyZ n then JS.toString n else "unknown"
  | None => "unknown"
  end.

Definition columnsText (dataSource : DataSource.t) : string :=
  orString (JS.join ", " <$> DataSource.columns dataSource) "unknown".

Definition askPrompt (dataSource : DataSource.t) (dataContent newMessage : string) : string :=
  "You are a data analysis AI assistant helping a data steward analyze their dataset.

Dataset Information:
- Name: " +:+ DataSource.name dataSource +:+ "
- Type: " +:+ typeName (DataSource.type dataSource) +:+ "
- Records: " +:+ recordsText dataSource +:+ "
- Columns: " +:+ columnsText dataSource +:+ "
- Description: " +:+ orString (DataSource.description dataSource) "No description" +:+ "

Data Sample (first 2000 characters):
" +:+ JS.substring0 2000 dataContent +:+ "

User Question: " +:+ JS.dq +:+ newMessage +:+ JS.dq +:+ "

Please provide a helpful, detailed analysis response. If the user is asking for:
- Summary: Provide key statistics and overview
- Insights: Identify patterns, trends, and notable findings  
- Quality issues: Point out missing data, inconsistencies, duplicates
- Specific analysis: Answer based on the data content
- Reports: Structure findings in a clear format

Be specific and reference actual data when possible. Keep responses professional and actionable for data stewardship tasks.".

Definition apology : string :=
  "I apologize, but I'm having trouble analyzing your data right now. Please try rephrasing your question or check your data source.".

(** [sendMessage] of the chat interface. [newMessage], [dataSource] and
    [dataContent] are the values of the render in which the handler was
    created, read here when the handler starts. *)
Definition sendMessage (w : AskAnswers) : M State unit :=
  let* newMessage := gets newMessage in
  let* dataSource := gets selectedDataSource in
  let* dataContent := gets dataContent in
  if negb (JS.truthy (JS.trim newMessage)) || absent dataSource then ret tt
  else
  match dataSource with
  | None => ret tt
  | Some dataSource =>
      let userMessage :=
        {| ChatMessage.id := JS.toString (now w 0%nat);
           ChatMessage.content := newMessage;
           ChatMessage.type := user;
           ChatMessage.timestamp := now w 1%nat;
           ChatMessage.dataSource := None;
           ChatMessage.analysis := None |} in
      setMessages (λ prev, prev ++ [userMessage]) ;;
      setNewMessage EmptyString ;;
      setIsAiTyping true ;;
      tryFinally
        (tryCatch
           (let* response :=
              call (GenerateText (askPrompt dataSource dataContent newMessage) 500)
                   (completion w) in
            let aiMessage :=
              {| ChatMessage.id := JS.toString (now w 2%nat + 1);
                 ChatMessage.content := response;
                 ChatMessage.type := ai;
                 ChatMessage.timestamp := now w 3%nat;
                 ChatMessage.dataSource := Some dataSource;
                 ChatMessage.analysis := None |} in
            setMessages (λ prev, prev ++ [aiMessage]))
           (λ e,
              console_error "Failed to generate AI response:" e ;;
              let errorMessage :=
                {| ChatMessage.id := JS.toString (now w 2%nat + 1);
                   ChatMessage.content := apology;
                   ChatMessage.type := ai;
                   ChatMessage.timestamp := now w 3%nat;
                   ChatMessage.dataSource := None;
                   ChatMessage.analysis := None |} in
              setMessages (λ prev, prev ++ [errorMessage])))
        (setIsAiTyping false)
  end.

End DataChat.

(** ** The team chat page: [ChatWorkspace] *)

Module ChatWorkspace.

Record State := {
  messages : list Message.t;
  newMessage : string;
  channels : list Channel.t;
  activeChannel : string;
  isAiTyping : bool
}.

Definition with_messages (v : list Message.t) (s : State) : State :=
  {| messages := v; newMessage := newMessage s; channels := channels s;
     activeChannel := activeChannel s; isAiTyping := isAiTyping s |}.

Definition with_newMessage (v : string) (s : State) : State :=
  {| messages := messages s; newMessage := v; channels := channels s;
     activeChannel := activeChannel s; isAiTyping := isAiTyping s |}.

Definition with_isAiTyping (v : bool) (s : State) : State :=
  {| messages := messages s; newMessage := newMessage s;
     channels := channels s; activeChannel := activeChannel s;
     isAiTyping := v |}.

Definition setMessages (f : list Message.t → list Message.t) : M State unit :=
  modify (λ s, with_messages (f (messages s)) s).

Definition setNewMessage (v : string) : M State unit := modify (with_newMessage v).

Definition setIsAiTyping (v : bool) : M State unit := modify (with_isAiTyping v).

Definition responsePrompt (userMessage : string) : string :=
  "You are an AI assistant helping data stewards with KYC and MDM tasks. The user said: "
  +:+ JS.dq +:+ userMessage +:+ JS.dq +:+
  ". Provide a helpful, professional response focused on data quality, governance, and stewardship. Keep it concise and actionable.".

Definition fallback : string :=
  "I'm here to help with your data stewardship tasks! Could you please rephrase your question?".

(** [generateAIResponse]: [answer] is the answer to the completion request. *)
Definition generateAIResponse (userMessage : string) (answer : Res string) : M State string :=
  tryCatch
    (let* text := call (GenerateText (responsePrompt userMessage) 150) answer in
     ret text)
    (λ _, ret fallback).

(** [user.displayName || user.email]. *)
Definition senderName (u : User.t) : string :=
  orString (User.displayName u) (User.email u).

(** The test that triggers the simulated response. *)
Definition mentionsAssistant (newMessage : string) : bool :=
  JS.includes (JS.toLowerCase newMessage) "ai"
  || JS.includes (JS.toLowerCase newMessage) "analyze"
  || JS.includes (JS.toLowerCase newMessage) "help".

(** The answers of the world to one run of [sendMessage]. *)
Record SendAnswers := { send_now : nat → Z; published : Res unit }.

(** [sendMessage] of the team chat; [u] is the [user] prop. [newMessage] and
    [activeChannel] are read when the handler starts. *)
Definition sendMessage (u : User.t) (w : SendAnswers) : M State unit :=
  let* newMessage := gets newMessage in
  let* activeChannel := gets activeChannel in
  if negb (JS.truthy (JS.trim newMessage)) then ret tt
  else
    tryCatch
      (let tempMessage :=
         {| Message.id := JS.toString (send_now w 0%nat);
            Message.content := newMessage;
            Message.userId := User.id u;
            Message.userName := senderName u;
            Message.timestamp := send_now w 1%nat;
            Message.type := user |} in
       setMessages (λ prev, prev ++ [tempMessage]) ;;
       call (RealtimePublish ("chat-" +:+ activeChannel) "chat" newMessage "user"
               (User.id u) (senderName u))
            (published w) ;;
       setNewMessage EmptyString ;;
       if mentionsAssistant newMessage
       then setTimeout (ShowTyping newMessage) 500
       else ret tt)
      (λ e, console_error "Failed to send message:" e).

(** The answers of the world to the run of a timer. *)
Record TimerAnswers := { timer_now : nat → Z; completion : Res string }.

(** The bodies of the two nested [setTimeout] closures of [sendMessage]. *)
Definition fire (f : Timer) (w : TimerAnswers) : M State unit :=
  match f with
  | ShowTyping userMessage =>
      setIsAiTyping true ;;
      setTimeout (Respond userMessage) 2000
  | Respond userMessage =>
      let* aiResponse := generateAIResponse userMessage (completion w) in
      let aiMessage :=
        {| Message.id := JS.toString (timer_now w 0%nat + 1);
           Message.content := aiResponse;
           Message.userId := "ai";
           Message.userName := "AI Assistant";
           Message.timestamp := timer_now w 1%nat;
           Message.type := ai |} in
      setMessages (λ prev, prev ++ [aiMessage]) ;;
      setIsAiTyping false
  end.

(** One turn of the event loop: the timer that is due first runs. The
    result tells whether a timer ran. *)
Definition runTimer (w : TimerAnswers) : M State bool :=
  let* next := takeTimer in
  match next with
  | None => ret false
  | Some f => fire f w ;; ret true
  end.

End ChatWorkspace.

(** ** More of [DataChatInterface]: the report *)

Module DataChatInterface.

Import DataChat.

Definition reportPrompt (dataSource : DataSource.t) (dataContent : string) : string :=
  "Generate a comprehensive data quality and analysis report for this dataset:

Dataset: " +:+ DataSource.name dataSource +:+ "
Type: " +:+ typeName (DataSource.type dataSource) +:+ "
Records: " +:+ recordsText dataSource +:+ "
Columns: " +:+ columnsText dataSource +:+ "

Data Sample:
" +:+ JS.substring0 3000 dataContent +:+ "

Please provide a structured report with:
1. Executive Summary
2. Data Overview (structure, size, key fields)
3. Data Quality Assessment (completeness, accuracy, consistency)
4. Key Insights and Patterns
5. Recommendations for Data Stewards
6. Potential Issues and Risks

Format as a professional report suitable for data governance teams.".

(** The answers of the world to one run of [generateDataReport]. *)
Record ReportAnswers := { report_now : nat → Z; report : Res string }.

(** [generateDataReport]; [dataSource] and [dataContent] are read when the
    handler starts. *)
Definition generateDataReport (w : ReportAnswers) : M State unit :=
  let* dataSource := gets selectedDataSource in
  let* dataContent := gets dataContent in
  match dataSource with
  | None => ret tt
  | Some dataSource =>
      setIsAiTyping true ;;
      tryFinally
        (tryCatch
           (let* response :=
              call (GenerateText (reportPrompt dataSource dataContent) 800)
                   (report w) in
            let reportMessage :=
              {| ChatMessage.id := JS.toString (report_now w 0%nat);
                 ChatMessage.content := response;
                 ChatMessage.type := ai;
                 ChatMessage.timestamp := report_now w 1%nat;
                 ChatMessage.dataSource := Some dataSource;
                 ChatMessage.analysis := None |} in
            setMessages (λ prev, prev ++ [reportMessage]))
           (λ e, console_error "Failed to generate report:" e))
        (setIsAiTyping false)
  end.

End DataChatInterface.

(** ** More of [ChatWorkspace]: messages from the realtime channel *)

Module TeamChat.

Import ChatWorkspace.

(** A message as the realtime channel delivers it to the subscriber:
    [kind] is [message.type], [content] and [type] are [message.data.content]
    and [message.data.type], [displayName] is [message.metadata?.displayName]. *)
Record RealtimeMessage := {
  id : string;
  kind : string;
  content : string;
  type : option Author;
  userId : string;
  displayName : option string;
  timestamp : Z
}.

(** The callback given to [blink.realtime.subscribe]. *)
Definition onRealtimeMessage (message : RealtimeMessage) : M State unit :=
  if String.eqb (kind message) "chat" then
    let newMsg :=
      {| Message.id := id message;
         Message.content := content message;
         Message.userId := userId message;
         Message.userName := orString (displayName message) "Unknown User";
         Message.timestamp := timestamp message;
         Message.type := default user (type message) |} in
    setMessages (λ prev, prev ++ [newMsg])
  else ret tt.

(** The sample messages of [loadMessages]; [now n] is the reading of the
    clock number [n]. *)
Definition sampleMessages (now : nat → Z) : list Message.t :=
  [ {| Message.id := "1";
       Message.content := "Good morning team! I've noticed some inconsistencies in the customer address data. Should we run a quality check?";
       Message.userId := "user1";
       Message.userName := "Sarah Johnson";
       Message.timestamp := now 0%nat - 60 * 60 * 1000;
       Message.type := user |};
    {| Message.id := "2";
       Message.content := "I can help analyze the address data inconsistencies. Based on my analysis, there are approximately 247 records with formatting issues in the postal code field. Would you like me to generate a detailed report?";
       Message.userId := "ai";
       Message.userName := "AI Assistant";
       Message.timestamp := now 1%nat - 55 * 60 * 1000;
       Message.type := ai |};
    {| Message.id := "3";
       Message.content := "That would be great! Can you also check for duplicate entries while you're at it?";
       Message.userId := "user2";
       Message.userName := "Mike Chen";
       Message.timestamp := now 2%nat - 50 * 60 * 1000;
       Message.type := user |};
    {| Message.id := "4";
       Message.content := "Absolutely! I've identified 23 potential duplicate records based on name and address similarity. I've created a summary report with recommendations for data cleansing.";
       Message.userId := "ai";
       Message.userName := "AI Assistant";
       Message.timestamp := now 3%nat - 45 * 60 * 1000;
       Message.type := ai |} ].

(** [loadMessages], which the effect on [activeChannel] calls. *)
Definition loadMessages (now : nat → Z) : M State unit :=
  setMessages (λ _, sampleMessages now).

End TeamChat.

(** * Vocabulary of the statements *)

(** [q] occurs in [s] up to case: a segment of [s] and [q] have the same
    lower-case form. *)
Definition ci_substring (q s : string) : Prop :=
  ∃ pre mid post, s = pre +:+ mid +:+ post ∧ JS.toLowerCase mid = JS.toLowerCase q.

(** A data source matches a query on its name or on its description. *)
Definition matches (q : string) (ds : DataSource.t) : Prop :=
  ci_substring q (DataSource.name ds)
  ∨ ∃ d, DataSource.description ds = Some d ∧ ci_substring q d.

(** [selects P l r]: [r] consists of exactly the entries of [l] that satisfy
    [P], each as often as in [l] and in the order of [l]. *)
Inductive selects {A} (P : A → Prop) : list A → list A → Prop :=
| selects_nil : selects P [] []
| selects_keep x l r : P x → selects P l r → selects P (x :: l) (x :: r)
| selects_drop x l r : ¬ P x → selects P l r → selects P (x :: l) r.

(** The collection persisted for a user: what a load reads from local
    storage, the empty collection when nothing is stored. *)
Definition persisted {C} (u : User.t) (σ : Store C) : list DataSource.t :=
  default [] (localStorage (world σ) !! DataChat.storageKey u).

(** The persisted collection of the user is the collection in memory. *)
Definition in_sync (u : User.t) (σ : Store DataChat.State) : Prop :=
  persisted u σ = DataChat.dataSources (comp σ).

(** A string made of white space only. *)
Fixpoint blank (s : string) : bool :=
  match s with
  | EmptyString => true
  | String c s' => JS.is_space c && blank s'
  end.

(** A string without a dot. *)
Fixpoint dotless (s : string) : bool :=
  match s with
  | EmptyString => true
  | String c s' => negb (Ascii.eqb c ".") && dotless s'
  end.

(** [ext] is the last part of [name]: the text after its last dot, or
    [name] itself when it has no dot. *)
Definition last_part (name ext : string) : Prop :=
  dotless ext = true ∧ (name = ext ∨ ∃ base, name = base +:+ "." +:+ ext).

(** A call that is rejected. *)
Definition failed {A} (r : Res A) : Prop := ∃ e, r = Throw e.

(** The ids of the collection in memory. *)
Definition ids (σ : Store DataChat.State) : list string :=
  DataSource.id <$> DataChat.dataSources (comp σ).

(** The entries of a collection with another id than [id]. *)
Definition without (id : string) (l : list DataSource.t) : list DataSource.t :=
  List.filter (λ ds, negb (String.eqb (DataSource.id ds) id)) l.

(** The request that a send of the team chat publishes. *)
Definition publication (u : User.t) (σ : Store ChatWorkspace.State) : Request :=
  RealtimePublish ("chat-" +:+ ChatWorkspace.activeChannel (comp σ)) "chat"
    (ChatWorkspace.newMessage (comp σ)) "user" (User.id u)
    (ChatWorkspace.senderName u).

(** The text has one of the words that call the assistant, in any case. *)
Definition calls_assistant (text : string) : Prop :=
  ci_substring "ai" text ∨ ci_substring "analyze" text ∨ ci_substring "help" text.

(** * Sample data *)

Module Sample.

Definition emptyWorld : World :=
  {| localStorage := ∅; console := []; requests := []; timers := []; time := 0 |}.

Definition ada : User.t :=
  {| User.id := "u1"; User.displayName := Some "Ada";
     User.email := "ada@example.org" |}.

Definition customers_csv : File.t :=
  {| File.name := "customers.csv"; File.size := 2048 |}.

Definition roster : Analysis.t :=
  {| Analysis.recordCount := 500;
     Analysis.columns := ["id"; "name"; "email"];
     Analysis.description := "Customer roster";
     Analysis.dataQuality := None |}.

(** Every step of the upload succeeds. *)
Definition upload_ok : DataChat.UploadAnswers :=
  {| DataChat.me := Ok ada;
     DataChat.uploaded := Ok "https://files.example.org/customers.csv";
     DataChat.extracted := Ok (Text "id,name,email");
     DataChat.analysed := Ok roster;
     DataChat.now_id := 1700000000000;
     DataChat.now_date := 1700000000001;
     DataChat.save_me := Ok ada |}.

(** The structured analysis is rejected. *)
Definition analysis_rejected : DataChat.UploadAnswers :=
  {| DataChat.me := Ok ada;
     DataChat.uploaded := Ok "https://files.example.org/customers.csv";
     DataChat.extracted := Ok (Text "id,name,email");
     DataChat.analysed := Throw (Failure "model unavailable");
     DataChat.now_id := 1700000000000;
     DataChat.now_date := 1700000000001;
     DataChat.save_me := Ok ada |}.

Definition orders : DataSource.t :=
  {| DataSource.id := "ds_1600000000000";
     DataSource.name := "Orders.JSON";
     DataSource.type := json;
     DataSource.size := 4096;
     DataSource.uploadedAt := 1600000000001;
     DataSource.status := ready;
     DataSource.recordCount := Some 120;
     DataSource.columns := Some ["order"; "total"];
     DataSource.description := Some "Monthly orders";
     DataSource.fileUrl := Some "https://files.example.org/orders.json";
     DataSource.userId := "u1" |}.

Definition ledger : DataSource.t :=
  {| DataSource.id := "ds_1500000000000";
     DataSource.name := "ledger.xlsx";
     DataSource.type := excel;
     DataSource.size := 512;
     DataSource.uploadedAt := 1500000000001;
     DataSource.status := ready;
     DataSource.recordCount := None;
     DataSource.columns := None;
     DataSource.description := None;
     DataSource.fileUrl := None;
     DataSource.userId := "u1" |}.

(** The page as mounted in a browser with nothing stored, and after its
    load. *)
Definition blank_page : Store DataChat.State :=
  {| comp := DataChat.initial; world := emptyWorld |}.

Definition fresh : Store DataChat.State :=
  exec (DataChat.loadDataSources (Ok ada)) blank_page.

(** The page as mounted in a browser where [orders] and [ledger] are stored
    for [ada]. *)
Definition mounted : Store DataChat.State :=
  {| comp := DataChat.initial;
     world := with_localStorage {[ DataChat.storageKey ada := [orders; ledger] ]}
                emptyWorld |}.

(** After a load that succeeds: the catalog holds the stored collection. *)
Definition loaded : Store DataChat.State :=
  exec (DataChat.loadDataSources (Ok ada)) mounted.

(** After a load whose user lookup is rejected: the collection in memory is
    empty, local storage still holds [orders] and [ledger]. *)
Definition load_failed : Store DataChat.State :=
  exec (DataChat.loadDataSources (Throw (Failure "offline"))) mounted.

(** The data chat with [orders] selected and a question typed. *)
Definition asking : Store DataChat.State :=
  {| comp := DataChat.with_newMessage "Summarize this data"
               (DataChat.with_selectedDataSource (Some orders)
                  (DataChat.with_dataSources [orders; ledger]
                     (DataChat.with_loading false DataChat.initial)));
     world := emptyWorld |}.

(** The same page with only spaces typed. *)
Definition idle : Store DataChat.State :=
  {| comp := DataChat.with_newMessage "   " (comp asking); world := emptyWorld |}.

(** The completion request is rejected. *)
Definition completion_rejected : DataChat.AskAnswers :=
  {| DataChat.now := λ n, 1700000000000 + Z.of_nat n;
     DataChat.completion := Throw (Failure "timeout") |}.

(** The team chat on the general channel with a message typed. *)
Definition team : Store ChatWorkspace.State :=
  {| comp := {| ChatWorkspace.messages := [];
                ChatWorkspace.newMessage := "Can someone HELP with the roster?";
                ChatWorkspace.channels := [];
                ChatWorkspace.activeChannel := "general";
                ChatWorkspace.isAiTyping := false |};
     world := emptyWorld |}.

Definition publish_ok : ChatWorkspace.SendAnswers :=
  {| ChatWorkspace.send_now := λ n, 1700000000000 + Z.of_nat n;
     ChatWorkspace.published := Ok tt |}.

(** The publication on the channel is rejected. *)
Definition publish_rejected : ChatWorkspace.SendAnswers :=
  {| ChatWorkspace.send_now := λ n, 1700000000000 + Z.of_nat n;
     ChatWorkspace.published := Throw (Failure "offline") |}.

Definition reply_rejected : ChatWorkspace.TimerAnswers :=
  {| ChatWorkspace.timer_now := λ n, 1700000002500 + Z.of_nat n;
     ChatWorkspace.completion := Throw (Failure "timeout") |}.

End Sample.

(** More sample data. *)
Module Fixture.

Definition bob : User.t :=
  {| User.id := "u2"; User.displayName := None; User.email := "bob@example.org" |}.

(** Every step of the upload succeeds except the user lookup of the save. *)
Definition save_rejected : DataChat.UploadAnswers :=
  {| DataChat.me := Ok Sample.ada;
     DataChat.uploaded := Ok "https://files.example.org/customers.csv";
     DataChat.extracted := Ok (Text "id,name,email");
     DataChat.analysed := Ok Sample.roster;
     DataChat.now_id := 1700000000000;
     DataChat.now_date := 1700000000001;
     DataChat.save_me := Throw (Failure "session expired") |}.

(** A second upload that reads the same millisecond on the clock. *)
Definition upload_same_ms : DataChat.UploadAnswers :=
  {| DataChat.me := Ok Sample.ada;
     DataChat.uploaded := Ok "https://files.example.org/orders.json";
     DataChat.extracted := Ok (Chunks ["[{"; "}]"]);
     DataChat.analysed := Ok Sample.roster;
     DataChat.now_id := 1700000000000;
     DataChat.now_date := 1700000000002;
     DataChat.save_me := Ok Sample.ada |}.

Definition orders_json : File.t :=
  {| File.name := "orders.json"; File.size := 64 |}.

(** The content of [orders] is loaded and a question is typed, for the chat
    on [orders]. *)
Definition reading : Store DataChat.State :=
  {| comp := DataChat.with_dataContent "order,total"
               (comp Sample.asking);
     world := Sample.emptyWorld |}.

Definition effect_answers : DataChat.EffectAnswers :=
  {| DataChat.content := Ok (Text "id,name,email");
     DataChat.effect_now := 1700000000005;
     DataChat.toLocaleString := JS.toString |}.

(** The team chat with nothing but spaces typed. *)
Definition team_idle : Store ChatWorkspace.State :=
  {| comp := ChatWorkspace.with_newMessage "  " (comp Sample.team);
     world := Sample.emptyWorld |}.

(** The team chat with a message that has none of the trigger words. *)
Definition team_plain : Store ChatWorkspace.State :=
  {| comp := ChatWorkspace.with_newMessage "Good morning" (comp Sample.team);
     world := Sample.emptyWorld |}.

(** A file whose name has no dot. *)
Definition json_without_dot : File.t :=
  {| File.name := "json"; File.size := 2 |}.

End Fixture.

(** * Properties *)

(** ** Facts about the string primitives *)

Section StringFacts.

Lemma append_cons (c : ascii) (s t : string) :
  String c s +:+ t = String c (s +:+ t).
Proof. reflexivity. Qed.

Lemma append_assoc (a b c : string) : (a +:+ b) +:+ c = a +:+ b +:+ c.
Proof. induction a as [|x a IH]; [done | by rewrite !append_cons, IH]. Qed.

Lemma startsWith_spec (s q : string) :
  JS.startsWith s q = true ↔ ∃ post, s = q +:+ post.
Proof.
  revert s. induction q as [|a q IH]; intros s; simpl.
  - split; [intros _; exists s; reflexivity | reflexivity].
  - destruct s as [|b s].
    + split; [done | intros [post H]; discriminate].
    + rewrite andb_true_iff, Ascii.eqb_eq, IH. split.
      * intros [-> [post ->]]. by exists post.
      * intros [post H]. rewrite append_cons in H. injection H as -> ->.
        split; [done | by exists post].
Qed.

Lemma includes_spec (s q : string) :
  JS.includes s q = true ↔ ∃ pre post, s = pre +:+ q +:+ post.
Proof.
  induction s as [|c s IH]; simpl.
  - rewrite orb_false_r, startsWith_spec. split.
    + intros [post H]. exists EmptyString, post. exact H.
    + intros [pre [post H]]. destruct pre; [exists post; exact H | discriminate].
  - rewrite orb_true_iff, startsWith_spec, IH. split.
    + intros [[post H] | [pre [post H]]].
      * exists EmptyString, post. exact H.
      * exists (String c pre), post. by rewrite append_cons, H.
    + intros [pre [post H]]. destruct pre as [|x pre].
      * left. exists post. exact H.
      * right. rewrite append_cons in H. injection H as _ ->. by exists pre, post.
Qed.

Lemma includes_empty (s : string) : JS.includes s EmptyString = true.
Proof. destruct s; reflexivity. Qed.

Lemma toLowerCase_append (a b : string) :
  JS.toLowerCase (a +:+ b) = JS.toLowerCase a +:+ JS.toLowerCase b.
Proof.
  induction a as [|x a IH]; [done |].
  rewrite append_cons. simpl. by rewrite append_cons, IH.
Qed.

(** A split of the lower-cased string comes from a split of the string. *)
Lemma toLowerCase_split (s x y : string) :
  JS.toLowerCase s = x +:+ y →
  ∃ a b, s = a +:+ b ∧ JS.toLowerCase a = x ∧ JS.toLowerCase b = y.
Proof.
  revert s. induction x as [|c x IH]; intros s H.
  - exists EmptyString, s. repeat split. exact H.
  - destruct s as [|d s]; [discriminate |].
    rewrite append_cons in H. simpl in H.
    injection H as Hc Hs. destruct (IH _ Hs) as (a & b & -> & Ha & Hb).
    exists (String d a), b. simpl. by rewrite Hc, Ha.
Qed.

End StringFacts.

Lemma ci_includes (s q : string) :
  JS.includes (JS.toLowerCase s) (JS.toLowerCase q) = true ↔ ci_substring q s.
Proof.
  rewrite includes_spec. split.
  - intros (pre & post & H).
    destruct (toLowerCase_split _ _ _ H) as (a & b & -> & _ & Hb).
    destruct (toLowerCase_split _ _ _ Hb) as (m & c & -> & Hm & _).
    by exists a, m, c.
  - intros (pre & mid & post & -> & Hm).
    exists (JS.toLowerCase pre), (JS.toLowerCase post).
    by rewrite !toLowerCase_append, Hm.
Qed.

(** ** Search *)

Section Search.

Context {A : Type}.

Lemma filter_selects (f : A → bool) (P : A → Prop) (l : list A) :
  (∀ x, f x = true ↔ P x) → selects P l (List.filter f l).
Proof.
  intros Hf. induction l as [|x l IH]; simpl.
  - constructor.
  - destruct (f x) eqn:E.
    + apply selects_keep; [by apply Hf | done].
    + apply selects_drop; [| done]. rewrite <- Hf. congruence.
Qed.

Lemma selects_elem_of (P : A → Prop) (l r : list A) (x : A) :
  selects P l r → (x ∈ r ↔ x ∈ l ∧ P x).
Proof.
  induction 1 as [|y l r Hy _ IH|y l r Hy _ IH].
  - split; [intros H | intros [H _]]; by apply elem_of_nil in H.
  - rewrite !elem_of_cons, IH. split.
    + intros [-> | [Hx HP]]; [by split; [left |] | by split; [right |]].
    + intros [[-> | Hx] HP]; [by left | by right].
  - rewrite elem_of_cons, IH. split.
    + intros [Hx HP]. by split; [right |].
    + intros [[-> | Hx] HP]; [done | by split].
Qed.

Lemma selects_none (P : A → Prop) (l r : list A) :
  selects P l r → (∀ x, x ∈ l → ¬ P x) → r = [].
Proof.
  induction 1 as [|y l r Hy _ IH|y l r Hy _ IH]; intros Hno.
  - done.
  - destruct (Hno y); [apply elem_of_cons; by left | done].
  - apply IH. intros x Hx. apply Hno, elem_of_cons. by right.
Qed.

Lemma filter_all (f : A → bool) (l : list A) :
  (∀ x, f x = true) → List.filter f l = l.
Proof.
  intros Hf. induction l as [|x l IH]; simpl; [done |].
  by rewrite Hf, IH.
Qed.

End Search.

Lemma search_test_spec (q : string) (ds : DataSource.t) :
  JS.includes (JS.toLowerCase (DataSource.name ds)) (JS.toLowerCase q)
  || DataChat.optTest (DataSource.description ds)
       (λ d, JS.includes (JS.toLowerCase d) (JS.toLowerCase q)) = true
  ↔ matches q ds.
Proof.
  unfold matches. rewrite orb_true_iff, ci_includes.
  destruct (DataSource.description ds) as [d|]; simpl.
  - rewrite ci_includes. split.
    + intros [H | H]; [by left | right; by exists d].
    + intros [H | (d' & [= <-] & H)]; [by left | by right].
  - split.
    + intros [H | H]; [by left | done].
    + intros [H | (d' & [=] & _)]. by left.
Qed.

(** C4. The catalog search returns exactly the stored data sources whose name
    contains the query up to case or whose description does (a source
    without description matches on its name only), in the order of the
    collection; so a source is in the result iff it is stored and matches,
    and the result is empty when no stored source matches. The search is a
    function of the state of the component: it has no store to change. *)
Theorem search_returns_exactly_the_matches (s : DataChat.State) :
  let q := DataChat.searchQuery s in
  let found := DataChat.filteredDataSources s in
  selects (matches q) (DataChat.dataSources s) found
  ∧ (∀ ds, ds ∈ found ↔ ds ∈ DataChat.dataSources s ∧ matches q ds)
  ∧ ((∀ ds, ds ∈ DataChat.dataSources s → ¬ matches q ds) → found = []).
Proof.
  intros q found.
  assert (Hsel : selects (matches q) (DataChat.dataSources s) found).
  { apply filter_selects. intros ds. apply search_test_spec. }
  split; [done |]. split.
  - intros ds. by apply selects_elem_of.
  - by apply selects_none.
Qed.

(** C9. With the empty query the search returns the whole collection,
    unchanged and in the same order. *)
Theorem search_empty_query_is_identity (s : DataChat.State) :
  DataChat.searchQuery s = EmptyString →
  DataChat.filteredDataSources s = DataChat.dataSources s.
Proof.
  intros Hq. unfold DataChat.filteredDataSources. rewrite Hq.
  apply filter_all. intros ds. simpl. by rewrite includes_empty.
Qed.

Example search_by_name :
  DataChat.filteredDataSources (DataChat.with_searchQuery "ORD" (comp Sample.loaded))
  = [Sample.orders].
Proof. reflexivity. Qed.

Example search_by_description :
  DataChat.filteredDataSources (DataChat.with_searchQuery "month" (comp Sample.loaded))
  = [Sample.orders].
Proof. reflexivity. Qed.

Example search_without_description :
  DataChat.filteredDataSources (DataChat.with_searchQuery "r" (comp Sample.loaded))
  = [Sample.orders; Sample.ledger].
Proof. reflexivity. Qed.

Example search_without_match :
  DataChat.filteredDataSources (DataChat.with_searchQuery "invoice" (comp Sample.loaded))
  = [].
Proof. reflexivity. Qed.

Lemma search_empty_query_witness :
  DataChat.searchQuery (comp Sample.loaded) = EmptyString
  ∧ DataChat.filteredDataSources (comp Sample.loaded)
    = DataChat.dataSources (comp Sample.loaded).
Proof.
  split; [reflexivity |].
  apply (search_empty_query_is_identity (comp Sample.loaded)). reflexivity.
Defined.

(** ** File names *)

Section FileNames.

Lemma split_cons (sep : ascii) (s : string) : ∃ h t, JS.split sep s = h :: t.
Proof.
  induction s as [|c s (h & t & IH)]; simpl; [by eexists _, _ |].
  destruct (Ascii.eqb c sep); [by eexists _, _ |].
  rewrite IH. by eexists _, _.
Qed.

Lemma split_dotless (s : string) : dotless s = true → JS.split "." s = [s].
Proof.
  induction s as [|c s IH]; [done |]. simpl.
  intros [Hc Hs]%andb_true_iff. apply negb_true_iff in Hc.
  by rewrite Hc, IH.
Qed.

Lemma split_append (a b : string) :
  JS.split "." (a +:+ "." +:+ b) = JS.split "." a ++ JS.split "." b.
Proof.
  induction a as [|c a IH]; [done |].
  rewrite append_cons. simpl. destruct (Ascii.eqb c "."); [by rewrite IH |].
  rewrite IH. by destruct (split_cons "." a) as (h & t & ->).
Qed.

(** The file type is the lower-cased extension: the text after the last dot
    of the file name. *)
Lemma fileType_extension (base ext : string) (size : Z) :
  dotless ext = true →
  DataChat.fileType {| File.name := base +:+ "." +:+ ext; File.size := size |}
  = Some (JS.toLowerCase ext).
Proof.
  intros Hext. unfold DataChat.fileType, JS.pop. simpl.
  by rewrite split_append, (split_dotless ext Hext), last_snoc.
Qed.

(** A file name without a dot is its own extension. *)
Lemma fileType_dotless (name : string) (size : Z) :
  dotless name = true →
  DataChat.fileType {| File.name := name; File.size := size |}
  = Some (JS.toLowerCase name).
Proof.
  intros Hname. unfold DataChat.fileType, JS.pop. simpl.
  by rewrite (split_dotless name Hname).
Qed.

(** Every name has a last part. *)
Lemma last_part_exists (name : string) : ∃ ext, last_part name ext.
Proof.
  induction name as [|c name (ext & Hdot & [-> | (base & ->)])].
  - exists EmptyString. split; [done | by left].
  - destruct (Ascii.eqb c ".") eqn:E.
    + apply Ascii.eqb_eq in E as ->. exists ext. split; [done |].
      right. by exists EmptyString.
    + exists (String c ext). split; [| by left]. simpl. by rewrite E, Hdot.
  - exists ext. split; [done |]. right. by exists (String c base).
Qed.

(** The file type that the handler computes is the lower-cased last part
    of the file name. *)
Lemma fileType_last_part (file : File.t) (ext : string) :
  last_part (File.name file) ext →
  DataChat.fileType file = Some (JS.toLowerCase ext).
Proof.
  destruct file as [name size]. intros [Hdot [Hname | (base & Hname)]];
    simpl in Hname; subst name.
  - by apply fileType_dotless.
  - by apply fileType_extension.
Qed.

End FileNames.

(** ** Catalog: adding a file *)

Section Add.

Import DataChat.

Variable onDataSourceSelect : option (DataSource.t → M State unit).
Variable file : File.t.
Variable w : UploadAnswers.
Variable σ : Store State.

(** The upload up to the first step that fails, for any callback. *)
Lemma handleFileUpload_failure :
  failed (me w) ∨ failed (uploaded w) ∨ failed (extracted w) ∨ failed (analysed w) →
  ∃ e rs,
    handleFileUpload onDataSourceSelect (Some file) w σ =
    (Ok tt,
     {| comp := with_uploading false (comp σ);
        world := with_console
                   (console (world σ) ++ [("Failed to upload data source:", e)])
                   (with_requests (requests (world σ) ++ rs) (world σ)) |}).
Proof.
  intros H. unfold handleFileUpload.
  destruct (me w) as [u|e1] eqn:E1; [| exists e1, [AuthMe]; reflexivity].
  destruct (uploaded w) as [url|e2] eqn:E2.
  2:{ eexists e2, [_; _]. cbn. by rewrite <- app_assoc. }
  destruct (extracted w) as [x|e3] eqn:E3.
  2:{ eexists e3, [_; _; _]. cbn. by rewrite <- !app_assoc. }
  destruct (analysed w) as [a|e4] eqn:E4.
  2:{ eexists e4, [_; _; _; _]. cbn. by rewrite <- !app_assoc. }
  destruct H as [[e H] | [[e H] | [[e H] | [e H]]]]; discriminate.
Qed.

(** C1. When the storage upload, the content extraction or the structured
    analysis fails (or the user lookup before them), the upload handler
    creates no record: the collection in memory and local storage are as
    before; the handler only logs the error and clears the [uploading]
    flag, whatever the selection callback is. *)
Theorem upload_failure_creates_no_record :
  failed (me w) ∨ failed (uploaded w) ∨ failed (extracted w) ∨ failed (analysed w) →
  let σ' := exec (handleFileUpload onDataSourceSelect (Some file) w) σ in
  outcome (handleFileUpload onDataSourceSelect (Some file) w) σ = Ok tt
  ∧ dataSources (comp σ') = dataSources (comp σ)
  ∧ localStorage (world σ') = localStorage (world σ)
  ∧ comp σ' = with_uploading false (comp σ)
  ∧ ∃ e, console (world σ')
         = console (world σ) ++ [("Failed to upload data source:", e)].
Proof.
  intros H σ'. subst σ'. unfold exec, outcome.
  destruct (handleFileUpload_failure H) as (e & rs & ->). cbn.
  repeat split; by exists e.
Qed.

(** What a run that passes the four steps adds to the collection. *)
Lemma handleFileUpload_adds (u : User.t) (url : string) (x : Extracted)
    (a : Analysis.t) :
  me w = Ok u → uploaded w = Ok url → extracted w = Ok x → analysed w = Ok a →
  let new := newDataSource file u url a (now_id w) (now_date w) in
  let σ' := exec (handleFileUpload (Some setSelectedDataSource) (Some file) w) σ in
  dataSources (comp σ') = new :: dataSources (comp σ)
  ∧ selectedDataSource (comp σ') = Some new
  ∧ (∀ us, save_me w = Ok us →
       localStorage (world σ')
       = <[storageKey us := new :: dataSources (comp σ)]> (localStorage (world σ)))
  ∧ (failed (save_me w) → localStorage (world σ') = localStorage (world σ)).
Proof.
  intros E1 E2 E3 E4 new σ'. subst new σ'.
  unfold exec, handleFileUpload. rewrite E1, E2, E3, E4.
  destruct (save_me w) as [us|e] eqn:E5; cbn.
  - repeat split; [by intros us' [= <-] | by intros [e He]].
  - repeat split; by intros us' [=].
Qed.

(** C2, as the code has it. When every step of an add succeeds, including
    the user lookup of the save, the new data source is put in front of the
    collection in memory, the persisted collection of the user becomes that
    new collection, and the new data source becomes the selection of the
    page. When the persisted collection was the one in memory before the add,
    it therefore grows by exactly one entry, the new one at index 0, and the
    entries stored before follow in their order. *)
Theorem add_prepends_persists_and_selects (u us : User.t) (url : string)
    (x : Extracted) (a : Analysis.t) :
  me w = Ok u → uploaded w = Ok url → extracted w = Ok x → analysed w = Ok a →
  save_me w = Ok us →
  let new := newDataSource file u url a (now_id w) (now_date w) in
  let σ' := exec (handleFileUpload (Some setSelectedDataSource) (Some file) w) σ in
  dataSources (comp σ') = new :: dataSources (comp σ)
  ∧ persisted us σ' = new :: dataSources (comp σ)
  ∧ selectedDataSource (comp σ') = Some new
  ∧ (in_sync us σ →
     persisted us σ' = new :: persisted us σ
     ∧ length (persisted us σ') = S (length (persisted us σ))
     ∧ persisted us σ' !! 0%nat = Some new
     ∧ ∀ i, persisted us σ' !! S i = persisted us σ !! i).
Proof.
  intros E1 E2 E3 E4 E5 new σ'.
  destruct (handleFileUpload_adds u url x a E1 E2 E3 E4) as (Hm & Hs & Hp & _).
  fold new σ' in Hm, Hs, Hp. specialize (Hp us E5).
  assert (Hp' : persisted us σ' = new :: dataSources (comp σ)).
  { unfold persisted. by rewrite Hp, lookup_insert_eq. }
  split; [done |]. split; [done |]. split; [done |].
  intros Hsync. unfold in_sync in Hsync. rewrite Hp', Hsync. by repeat split.
Qed.

(** C3, as the code has it. The data source that an add creates has the
    type given by the last part of the file name alone, in lower case: the
    text after the last dot, or the whole name when it has no dot. The type
    is [json] for json, [excel] for xlsx and xls, [csv] in every other case,
    never [database]; the status is [ready], and the record count, the
    columns and the description are those of the analysis result. *)
Theorem added_source_type_comes_from_the_file_name (u : User.t) (url : string)
    (x : Extracted) (a : Analysis.t) :
  me w = Ok u → uploaded w = Ok url → extracted w = Ok x → analysed w = Ok a →
  let σ' := exec (handleFileUpload (Some setSelectedDataSource) (Some file) w) σ in
  ∃ ds,
    dataSources (comp σ') = ds :: dataSources (comp σ)
    ∧ DataSource.name ds = File.name file
    ∧ (∃ ext, last_part (File.name file) ext)
    ∧ (∀ ext, last_part (File.name file) ext →
         (JS.toLowerCase ext = "json" → DataSource.type ds = json)
         ∧ (JS.toLowerCase ext = "xlsx" ∨ JS.toLowerCase ext = "xls" →
            DataSource.type ds = excel)
         ∧ (JS.toLowerCase ext ≠ "json" → JS.toLowerCase ext ≠ "xlsx" →
            JS.toLowerCase ext ≠ "xls" → DataSource.type ds = csv))
    ∧ DataSource.type ds ≠ database
    ∧ DataSource.status ds = ready
    ∧ DataSource.recordCount ds = Some (Analysis.recordCount a)
    ∧ DataSource.columns ds = Some (Analysis.columns a)
    ∧ DataSource.description ds = Some (Analysis.description a).
Proof.
  intros E1 E2 E3 E4 σ'.
  destruct (handleFileUpload_adds u url x a E1 E2 E3 E4) as (Hm & _).
  fold σ' in Hm. eexists. split; [exact Hm |]. cbn.
  split; [done |]. split; [apply last_part_exists |]. split.
  - intros ext Hext. unfold dataType.
    rewrite (fileType_last_part file ext Hext). split_and!.
    + intros ->. by rewrite decide_True.
    + intros Hx. rewrite decide_False by (destruct Hx as [-> | ->]; discriminate).
      rewrite decide_True; [done |]. destruct Hx as [-> | ->]; [by left | by right].
    + intros H1 H2 H3. rewrite decide_False by (by intros [= ?]).
      rewrite decide_False by (by intros [[= ?] | [= ?]]).
      by case_decide.
  - split_and!; try done. unfold dataType. repeat case_decide; discriminate.
Qed.

End Add.

Lemma upload_failure_witness :
  failed (DataChat.analysed Sample.analysis_rejected)
  ∧ let σ' := exec (DataChat.handleFileUpload (Some DataChat.setSelectedDataSource)
                      (Some Sample.customers_csv) Sample.analysis_rejected)
                Sample.loaded in
    DataChat.dataSources (comp σ') = [Sample.orders; Sample.ledger]
    ∧ localStorage (world σ') = localStorage (world Sample.loaded)
    ∧ DataChat.selectedDataSource (comp σ') = None.
Proof.
  assert (H : failed (DataChat.analysed Sample.analysis_rejected)).
  { by exists (Failure "model unavailable"). }
  split; [exact H |].
  destruct (upload_failure_creates_no_record (Some DataChat.setSelectedDataSource)
              Sample.customers_csv Sample.analysis_rejected Sample.loaded
              (or_intror (or_intror (or_intror H))))
    as (_ & Hm & Hp & Hc & _).
  cbv zeta. rewrite Hm, Hp, Hc. repeat split.
Defined.

Lemma add_witness :
  (DataChat.me Sample.upload_ok = Ok Sample.ada
   ∧ DataChat.save_me Sample.upload_ok = Ok Sample.ada
   ∧ in_sync Sample.ada Sample.loaded)
  ∧ let new := DataChat.newDataSource Sample.customers_csv Sample.ada
                 "https://files.example.org/customers.csv" Sample.roster
                 1700000000000 1700000000001 in
    let σ' := exec (DataChat.handleFileUpload (Some DataChat.setSelectedDataSource)
                      (Some Sample.customers_csv) Sample.upload_ok)
                Sample.loaded in
    DataChat.dataSources (comp σ') = [new; Sample.orders; Sample.ledger]
    ∧ persisted Sample.ada σ' = new :: persisted Sample.ada Sample.loaded
    ∧ DataChat.selectedDataSource (comp σ') = Some new.
Proof.
  split; [repeat split; reflexivity |].
  destruct (add_prepends_persists_and_selects Sample.customers_csv Sample.upload_ok
              Sample.loaded Sample.ada Sample.ada
              "https://files.example.org/customers.csv" (Text "id,name,email")
              Sample.roster eq_refl eq_refl eq_refl eq_refl eq_refl)
    as (Hm & _ & Hs & Hsync).
  destruct (Hsync eq_refl) as (Hp & _).
  cbv zeta. by rewrite Hm, Hp, Hs.
Defined.

(** The scenario of the customer roster, [customers.csv] of 2048 bytes with
    an analysis of 500 records and three columns, and an upload of
    [orders.json]. *)
Lemma added_source_witness :
  (DataChat.analysed Sample.upload_ok = Ok Sample.roster
   ∧ last_part (File.name Sample.customers_csv) "csv"
   ∧ last_part (File.name Fixture.orders_json) "json")
  ∧ (∃ ds,
       DataChat.dataSources
         (comp (exec (DataChat.handleFileUpload (Some DataChat.setSelectedDataSource)
                        (Some Sample.customers_csv) Sample.upload_ok)
                  Sample.fresh))
       = [ds]
       ∧ DataSource.type ds = csv
       ∧ DataSource.status ds = ready
       ∧ DataSource.recordCount ds = Some 500
       ∧ length <$> DataSource.columns ds = Some 3%nat)
  ∧ (∃ ds,
       DataChat.dataSources
         (comp (exec (DataChat.handleFileUpload (Some DataChat.setSelectedDataSource)
                        (Some Fixture.orders_json) Fixture.upload_same_ms)
                  Sample.fresh))
       = [ds]
       ∧ DataSource.type ds = json).
Proof.
  assert (Hcsv : last_part (File.name Sample.customers_csv) "csv").
  { split; [reflexivity |]. right. by exists "customers". }
  assert (Hjson : last_part (File.name Fixture.orders_json) "json").
  { split; [reflexivity |]. right. by exists "orders". }
  split; [by split_and! |]. split.
  - destruct (added_source_type_comes_from_the_file_name Sample.customers_csv
                Sample.upload_ok Sample.fresh Sample.ada
                "https://files.example.org/customers.csv" (Text "id,name,email")
                Sample.roster eq_refl eq_refl eq_refl eq_refl)
      as (ds & Hm & _ & _ & Htype & _ & Hst & Hrc & Hcol & _).
    exists ds. rewrite Hm, Hst, Hrc, Hcol. split_and!; try done.
    destruct (Htype "csv" Hcsv) as (_ & _ & H). apply H; discriminate.
  - destruct (added_source_type_comes_from_the_file_name Fixture.orders_json
                Fixture.upload_same_ms Sample.fresh Sample.ada
                "https://files.example.org/orders.json" (Chunks ["[{"; "}]"])
                Sample.roster eq_refl eq_refl eq_refl eq_refl)
      as (ds & Hm & _ & _ & Htype & _).
    exists ds. rewrite Hm. split; [done |].
    destruct (Htype "json" Hjson) as (H & _). by apply H.
Defined.

(** The claim C3 fails for a file name without a dot: the file named [json]
    has no extension, and the data source added for it has the type [json],
    not the default [csv]. *)
Lemma file_named_json_without_extension_is_typed_json :
  let σ' := exec (DataChat.handleFileUpload (Some DataChat.setSelectedDataSource)
                    (Some Fixture.json_without_dot) Sample.upload_ok)
              Sample.fresh in
  dotless (File.name Fixture.json_without_dot) = true
  ∧ (DataSource.name <$> DataChat.dataSources (comp σ')) = ["json"]
  ∧ (DataSource.type <$> DataChat.dataSources (comp σ')) = [json]
  ∧ (DataSource.type <$> DataChat.dataSources (comp σ')) ≠ [csv].
Proof.
  cbv zeta. split; [reflexivity |]. split; [reflexivity |].
  split; [reflexivity |]. by vm_compute.
Qed.

(** The claim C2 fails where the persisted collection is not the one in
    memory. After a load whose user lookup was rejected, local storage holds
    two data sources and the collection in memory none; a successful add then
    leaves one data source in local storage, and the two stored before are
    gone. *)
Lemma add_after_failed_load_drops_stored_records :
  let σ := Sample.load_failed in
  let σ' := exec (DataChat.handleFileUpload (Some DataChat.setSelectedDataSource)
                    (Some Sample.customers_csv) Sample.upload_ok) σ in
  persisted Sample.ada σ = [Sample.orders; Sample.ledger]
  ∧ length (persisted Sample.ada σ') = 1%nat
  ∧ length (persisted Sample.ada σ') ≠ S (length (persisted Sample.ada σ))
  ∧ ¬ (Sample.orders ∈ persisted Sample.ada σ')
  ∧ ¬ (Sample.ledger ∈ persisted Sample.ada σ').
Proof.
  cbv zeta. split; [reflexivity |]. split; [reflexivity |].
  split; [by vm_compute |].
  split; intros H; apply list_elem_of_singleton in H; discriminate.
Qed.

(** ** Catalog: removing a data source *)

Section Remove.

Import DataChat.

Variable id : string.

Lemma kept_selects (l : list DataSource.t) :
  selects (λ ds, DataSource.id ds ≠ id) l
    (List.filter (λ ds, negb (String.eqb (DataSource.id ds) id)) l).
Proof.
  apply filter_selects. intros ds.
  rewrite negb_true_iff. apply String.eqb_neq.
Qed.

Lemma selects_all {A} (P : A → Prop) (l r : list A) :
  selects P l r → (∀ x, x ∈ l → P x) → r = l.
Proof.
  induction 1 as [|y l r Hy _ IH|y l r Hy _ IH]; intros Hall.
  - done.
  - f_equal. apply IH. intros x Hx. apply Hall, elem_of_cons. by right.
  - destruct Hy. apply Hall, elem_of_cons. by left.
Qed.

Lemma selects_again {A} (P : A → Prop) (l r r' : list A) :
  selects P l r → selects P r r' → r' = r.
Proof.
  intros Hr Hr'. apply (selects_all P r r' Hr').
  intros x Hx. by apply (selects_elem_of P l r x Hr) in Hx as [_ HP].
Qed.

(** The store after [deleteDataSource], by the answer to the save. *)
Lemma deleteDataSource_run (answer : Res User.t) (σ : Store State) :
  let kept := List.filter (λ ds, negb (String.eqb (DataSource.id ds) id))
                (dataSources (comp σ)) in
  let σ' := exec (deleteDataSource id answer) σ in
  outcome (deleteDataSource id answer) σ = Ok tt
  ∧ comp σ' = with_dataSources kept (comp σ)
  ∧ localStorage (world σ')
    = match answer with
      | Ok u => <[storageKey u := kept]> (localStorage (world σ))
      | Throw _ => localStorage (world σ)
      end.
Proof. destruct answer; by cbn. Qed.

(** C5, as the code has it. [deleteDataSource] sets the collection in memory
    to its entries with another id, in their order, and saves that
    collection: when the user lookup of the save succeeds the persisted
    collection of the user becomes it, otherwise local storage is as before.
    Removing an id that is not in the collection leaves the collection in
    memory unchanged, and leaves the persisted collection unchanged when it
    was the one in memory. Removing the same id a second time changes
    neither the collection in memory nor, when the first save went through
    and the second is for the same user or fails, local storage. *)
Theorem remove_filters_saves_and_is_idempotent (answer : Res User.t)
    (σ : Store State) :
  let σ' := exec (deleteDataSource id answer) σ in
  selects (λ ds, DataSource.id ds ≠ id) (dataSources (comp σ)) (dataSources (comp σ'))
  ∧ (∀ u, answer = Ok u →
       localStorage (world σ')
       = <[storageKey u := dataSources (comp σ')]> (localStorage (world σ)))
  ∧ (failed answer → localStorage (world σ') = localStorage (world σ))
  ∧ ((∀ ds, ds ∈ dataSources (comp σ) → DataSource.id ds ≠ id) →
     dataSources (comp σ') = dataSources (comp σ)
     ∧ ∀ u, answer = Ok u → in_sync u σ → persisted u σ' = persisted u σ)
  ∧ (∀ again,
       let σ'' := exec (deleteDataSource id again) σ' in
       dataSources (comp σ'') = dataSources (comp σ')
       ∧ ∀ u, answer = Ok u → again = Ok u ∨ failed again →
              localStorage (world σ'') = localStorage (world σ')).
Proof.
  intros σ'.
  destruct (deleteDataSource_run answer σ) as (_ & Hc & Hw). fold σ' in Hc, Hw.
  assert (Hm : dataSources (comp σ')
               = List.filter (λ ds, negb (String.eqb (DataSource.id ds) id))
                   (dataSources (comp σ))) by (by rewrite Hc).
  assert (Hsel : selects (λ ds, DataSource.id ds ≠ id)
                   (dataSources (comp σ)) (dataSources (comp σ'))).
  { rewrite Hm. apply kept_selects. }
  split; [done |]. split; [| split; [| split]].
  - intros u ->. by rewrite Hw, Hm.
  - intros [e ->]. by rewrite Hw.
  - intros Habsent.
    assert (Hsame : dataSources (comp σ') = dataSources (comp σ))
      by (by apply (selects_all _ _ _ Hsel)).
    split; [done |]. intros u -> Hsync.
    rewrite Hsync, <- Hsame. unfold persisted.
    by rewrite Hw, <- Hm, lookup_insert_eq.
  - intros again σ''.
    destruct (deleteDataSource_run again σ') as (_ & Hc' & Hw').
    fold σ'' in Hc', Hw'.
    assert (Hm' : dataSources (comp σ'') = dataSources (comp σ')).
    { rewrite Hc'. cbn. apply (selects_again _ _ _ _ Hsel), kept_selects. }
    split; [done |]. intros u -> [-> | [e ->]]; [| done].
    rewrite Hw'. apply insert_id.
    replace (List.filter _ _) with (dataSources (comp σ''))
      by (by rewrite Hc').
    rewrite Hm', Hw, <- Hm. apply lookup_insert_eq.
Qed.

End Remove.

Lemma remove_witness :
  in_sync Sample.ada Sample.loaded
  ∧ (let σ' := exec (DataChat.deleteDataSource "ds_1600000000000" (Ok Sample.ada))
                 Sample.loaded in
     DataChat.dataSources (comp σ') = [Sample.ledger]
     ∧ persisted Sample.ada σ' = [Sample.ledger])
  ∧ (let σ' := exec (DataChat.deleteDataSource "ds_missing" (Ok Sample.ada))
                 Sample.loaded in
     DataChat.dataSources (comp σ') = [Sample.orders; Sample.ledger]
     ∧ persisted Sample.ada σ' = persisted Sample.ada Sample.loaded).
Proof.
  split; [reflexivity |]. split; [split; reflexivity |]. cbv zeta.
  destruct (remove_filters_saves_and_is_idempotent "ds_missing" (Ok Sample.ada)
              Sample.loaded) as (_ & _ & _ & Habsent & _).
  destruct Habsent as [Hm Hp].
  - intros ds Hds. apply elem_of_cons in Hds as [-> | Hds]; [discriminate |].
    apply list_elem_of_singleton in Hds as ->. discriminate.
  - split; [exact Hm | by apply (Hp Sample.ada)].
Defined.

(** The claim C5 fails where the persisted collection is not the one in
    memory. After a load whose user lookup was rejected, removing an id that
    is in neither collection empties the persisted collection. *)
Lemma remove_absent_id_after_failed_load_empties_storage :
  let σ := Sample.load_failed in
  let σ' := exec (DataChat.deleteDataSource "ds_missing" (Ok Sample.ada)) σ in
  (∀ ds, ds ∈ DataChat.dataSources (comp σ) → DataSource.id ds ≠ "ds_missing")
  ∧ (∀ ds, ds ∈ persisted Sample.ada σ → DataSource.id ds ≠ "ds_missing")
  ∧ DataChat.dataSources (comp σ') = DataChat.dataSources (comp σ)
  ∧ persisted Sample.ada σ = [Sample.orders; Sample.ledger]
  ∧ persisted Sample.ada σ' = []
  ∧ persisted Sample.ada σ' ≠ persisted Sample.ada σ.
Proof.
  cbv zeta. split; [| split; [| split; [| split; [| split]]]]; try reflexivity.
  - intros ds Hds. by apply elem_of_nil in Hds.
  - intros ds Hds. apply elem_of_cons in Hds as [-> | Hds]; [discriminate |].
    apply list_elem_of_singleton in Hds as ->. discriminate.
  - by vm_compute.
Qed.

(** ** Catalog: when the persisted collection is the one in memory *)

Section InSync.

Import DataChat.

(** A load that succeeds reads the persisted collection into memory. *)
Lemma load_in_sync (u : User.t) (σ : Store State) :
  in_sync u (exec (loadDataSources (Ok u)) σ).
Proof.
  unfold in_sync, persisted, exec, loadDataSources. cbn.
  by destruct (localStorage (world σ) !! storageKey u).
Qed.

(** An add whose save goes through writes the collection in memory. *)
Lemma add_in_sync (file : File.t) (w : UploadAnswers) (σ : Store State)
    (u us : User.t) (url : string) (x : Extracted) (a : Analysis.t) :
  me w = Ok u → uploaded w = Ok url → extracted w = Ok x → analysed w = Ok a →
  save_me w = Ok us →
  in_sync us (exec (handleFileUpload (Some setSelectedDataSource) (Some file) w) σ).
Proof.
  intros E1 E2 E3 E4 E5.
  destruct (handleFileUpload_adds file w σ u url x a E1 E2 E3 E4) as (Hm & _ & Hp & _).
  unfold in_sync, persisted. by rewrite Hm, (Hp us E5), lookup_insert_eq.
Qed.

(** A removal whose save goes through writes the collection in memory. *)
Lemma remove_in_sync (id : string) (u : User.t) (σ : Store State) :
  in_sync u (exec (deleteDataSource id (Ok u)) σ).
Proof.
  destruct (deleteDataSource_run id (Ok u) σ) as (_ & Hc & Hw).
  unfold in_sync, persisted. by rewrite Hw, Hc, lookup_insert_eq.
Qed.

End InSync.

(** ** White space *)

Lemma trim_blank (s : string) : JS.truthy (JS.trim s) = negb (blank s).
Proof.
  unfold JS.trim. induction s as [|c s IH]; [done |]. simpl.
  destruct (JS.is_space c) eqn:Ec; [exact IH |]. simpl.
  destruct (JS.trimEnd s); by rewrite ?Ec.
Qed.

Lemma blank_append (a b : string) : blank (a +:+ b) = blank a && blank b.
Proof.
  induction a as [|c a IH]; [done |].
  rewrite append_cons. simpl. by rewrite IH, andb_assoc.
Qed.

(** ** Data chat *)

Section DataChatInterface.

Import DataChat.

(** C6. When the selection changes to a data source, the effect on
    [dataSource] sets the transcript to exactly one message, written by the
    assistant, whose text contains the name of that data source, whatever
    the transcript was before. *)
Theorem selection_resets_transcript_to_welcome (ds : DataSource.t)
    (w : EffectAnswers) (σ : Store State) :
  let σ' := exec (dataSourceEffect (Some ds) w) σ in
  ∃ m, messages (comp σ') = [m]
       ∧ ChatMessage.type m = ai
       ∧ ChatMessage.dataSource m = Some ds
       ∧ (∃ pre post, ChatMessage.content m = pre +:+ DataSource.name ds +:+ post)
       ∧ JS.includes (ChatMessage.content m) (DataSource.name ds) = true.
Proof.
  intros σ'. exists (welcomeMessage ds w).
  assert (Hc : ∃ pre post,
             ChatMessage.content (welcomeMessage ds w)
             = pre +:+ DataSource.name ds +:+ post).
  { eexists (_ +:+ JS.dq), _. cbn. unfold welcomeContent.
    rewrite append_assoc. reflexivity. }
  repeat split; [| exact Hc | by apply includes_spec].
  subst σ'. unfold exec, dataSourceEffect, bind.
  destruct (loadDataContent (Some ds) (content w) σ) as [[[]|e] σ1] eqn:E.
  - reflexivity.
  - exfalso. revert E. unfold loadDataContent. cbn.
    destruct (DataSource.fileUrl ds) as [url|]; [| done]. cbn.
    destruct (JS.truthy url); [| done]. by destruct (content w).
Qed.

(** C10. [sendMessage] of the data chat does nothing when the input is empty
    or white space only, or when no data source is selected: the store is
    as before, so the transcript, the typing flag and the input are
    unchanged and no request is sent. *)
Theorem ask_without_text_or_source_does_nothing (w : AskAnswers)
    (σ : Store State) :
  blank (newMessage (comp σ)) = true ∨ selectedDataSource (comp σ) = None →
  sendMessage w σ = (Ok tt, σ)
  ∧ messages (comp (exec (sendMessage w) σ)) = messages (comp σ)
  ∧ isAiTyping (comp (exec (sendMessage w) σ)) = isAiTyping (comp σ)
  ∧ newMessage (comp (exec (sendMessage w) σ)) = newMessage (comp σ)
  ∧ requests (world (exec (sendMessage w) σ)) = requests (world σ).
Proof.
  intros H.
  assert (Hrun : sendMessage w σ = (Ok tt, σ)).
  { unfold sendMessage. cbn. rewrite trim_blank, negb_involutive.
    destruct H as [-> | ->]; [done |]. by rewrite orb_true_r. }
  unfold exec. by rewrite Hrun.
Qed.

(** C7. An ask with text and a selected data source appends the message of
    the user and then exactly one message of the assistant, so the
    transcript grows by two whether the completion succeeds or fails; when
    it fails the message of the assistant is the fixed apology. One
    completion request is sent, and none after a failure. *)
Theorem ask_appends_question_and_one_answer (w : AskAnswers) (σ : Store State)
    (ds : DataSource.t) :
  selectedDataSource (comp σ) = Some ds →
  blank (newMessage (comp σ)) = false →
  let σ' := exec (sendMessage w) σ in
  outcome (sendMessage w) σ = Ok tt
  ∧ (∃ question answer,
       messages (comp σ') = messages (comp σ) ++ [question; answer]
       ∧ ChatMessage.type question = user
       ∧ ChatMessage.content question = newMessage (comp σ)
       ∧ ChatMessage.type answer = ai
       ∧ (failed (completion w) → ChatMessage.content answer = apology)
       ∧ (∀ text, completion w = Ok text → ChatMessage.content answer = text))
  ∧ length (messages (comp σ')) = (length (messages (comp σ)) + 2)%nat
  ∧ requests (world σ')
    = requests (world σ)
      ++ [GenerateText
            (askPrompt ds (dataContent (comp σ)) (newMessage (comp σ))) 500]
  ∧ isAiTyping (comp σ') = false
  ∧ newMessage (comp σ') = EmptyString.
Proof.
  intros Hds Hblank σ'. subst σ'.
  unfold exec, outcome, sendMessage. cbn.
  rewrite trim_blank, Hblank, Hds. cbn.
  destruct (completion w) as [text|e] eqn:Ec; cbn.
  - split; [done |]. split.
    + eexists _, _. rewrite <- app_assoc. split; [reflexivity |]. cbn.
      repeat split; [by intros [e He] | by intros t [= <-]].
    + rewrite !length_app. cbn. repeat split. lia.
  - split; [done |]. split.
    + eexists _, _. rewrite <- app_assoc. split; [reflexivity |]. cbn.
      repeat split. by intros t [=].
    + rewrite !length_app. cbn. repeat split. lia.
Qed.

End DataChatInterface.

Lemma ask_noop_witness :
  (blank (DataChat.newMessage (comp Sample.idle)) = true
   ∨ DataChat.selectedDataSource (comp Sample.idle) = None)
  ∧ DataChat.sendMessage Sample.completion_rejected Sample.idle
    = (Ok tt, Sample.idle).
Proof.
  split; [by left |].
  apply (ask_without_text_or_source_does_nothing Sample.completion_rejected
           Sample.idle).
  by left.
Defined.

Lemma ask_failure_witness :
  (DataChat.selectedDataSource (comp Sample.asking) = Some Sample.orders
   ∧ blank (DataChat.newMessage (comp Sample.asking)) = false
   ∧ failed (DataChat.completion Sample.completion_rejected))
  ∧ let σ' := exec (DataChat.sendMessage Sample.completion_rejected) Sample.asking in
    length (DataChat.messages (comp σ')) = 2%nat
    ∧ (ChatMessage.content <$> DataChat.messages (comp σ'))
      = ["Summarize this data"; DataChat.apology]
    ∧ length (requests (world σ')) = 1%nat.
Proof.
  assert (Hf : failed (DataChat.completion Sample.completion_rejected))
    by (by exists (Failure "timeout")).
  split; [by repeat split |].
  destruct (ask_appends_question_and_one_answer Sample.completion_rejected
              Sample.asking Sample.orders eq_refl eq_refl)
    as (_ & (q & a & Hm & _ & Hq & _ & Ha & _) & Hlen & Hr & _).
  cbv zeta. rewrite Hlen, Hr, Hm. cbn. by rewrite Hq, (Ha Hf).
Defined.

(** ** Team chat *)

Section TeamChat.

Import ChatWorkspace.

Lemma space_lower (c : ascii) : JS.is_space c = true → JS.lower_unit c = c.
Proof. destruct c as [[] [] [] [] [] [] [] []]; try discriminate; reflexivity. Qed.

Lemma blank_lower (s : string) : blank s = true → JS.toLowerCase s = s.
Proof.
  induction s as [|c s IH]; [done |]. simpl.
  intros [Hc Hs]%andb_true_iff. by rewrite space_lower, IH.
Qed.

(** White space contains no word. *)
Lemma blank_excludes (s k : string) :
  blank k = false → blank s = true → JS.includes (JS.toLowerCase s) k = false.
Proof.
  intros Hk Hs. rewrite blank_lower by done.
  destruct (JS.includes s k) eqn:E; [| done].
  apply includes_spec in E as (pre & post & ->).
  rewrite !blank_append, Hk in Hs. by rewrite andb_false_r in Hs.
Qed.

Lemma mentions_not_blank (s : string) :
  mentionsAssistant s = true → blank s = false.
Proof.
  intros H. destruct (blank s) eqn:E; [| done].
  unfold mentionsAssistant in H. by rewrite !blank_excludes in H.
Qed.

Lemma mentionsAssistant_spec (s : string) :
  mentionsAssistant s = true
  ↔ ci_substring "ai" s ∨ ci_substring "analyze" s ∨ ci_substring "help" s.
Proof.
  unfold mentionsAssistant. rewrite !orb_true_iff, <- !ci_includes.
  change (JS.toLowerCase "ai") with "ai".
  change (JS.toLowerCase "analyze") with "analyze".
  change (JS.toLowerCase "help") with "help". tauto.
Qed.

(** The send of a message that mentions the assistant, when the publication
    succeeds. *)
Lemma sendMessage_schedules (u : User.t) (w : SendAnswers) (σ : Store State) :
  mentionsAssistant (newMessage (comp σ)) = true →
  published w = Ok tt →
  sendMessage u w σ =
  (Ok tt,
   {| comp := with_newMessage EmptyString
                (with_messages
                   (messages (comp σ)
                    ++ [{| Message.id := JS.toString (send_now w 0%nat);
                           Message.content := newMessage (comp σ);
                           Message.userId := User.id u;
                           Message.userName := senderName u;
                           Message.timestamp := send_now w 1%nat;
                           Message.type := user |}])
                   (comp σ));
      world := with_timers
                 (timers (world σ)
                  ++ [(time (world σ) + 500, ShowTyping (newMessage (comp σ)))])
                 (with_requests
                    (requests (world σ)
                     ++ [RealtimePublish ("chat-" +:+ activeChannel (comp σ))
                           "chat" (newMessage (comp σ)) "user" (User.id u)
                           (senderName u)])
                    (world σ)) |}).
Proof.
  intros Hm Hp. unfold sendMessage. cbn.
  rewrite trim_blank, (mentions_not_blank _ Hm). cbn.
  rewrite Hp. cbn. by rewrite Hm.
Qed.

(** C8, as the code has it. A message of the team chat that contains help, ai
    or analyze in any case, once published, leaves one timer due after
    500 ms. That timer shows the typing indicator and leaves one timer due
    2000 ms later, which
    sends exactly one completion request and appends exactly one message of
    the assistant: the completion text, or the fixed fallback text when the
    request fails; it never throws. With no other timer pending, the event
    loop reaches the request 500 + 2000 ms after the send and then has no
    timer left. *)
Theorem team_message_for_assistant_gets_one_reply (u : User.t) (w : SendAnswers)
    (σ : Store State) :
  let text := newMessage (comp σ) in
  ci_substring "help" text ∨ ci_substring "ai" text ∨ ci_substring "analyze" text →
  published w = Ok tt →
  let σ1 := exec (sendMessage u w) σ in
  let reply (a : TimerAnswers) : string :=
    match completion a with Ok t => t | Throw _ => fallback end in
  (timers (world σ1) = timers (world σ) ++ [(time (world σ) + 500, ShowTyping text)]
   ∧ (∃ m, messages (comp σ1) = messages (comp σ) ++ [m]
           ∧ Message.type m = user ∧ Message.content m = text)
   ∧ ∃ r, requests (world σ1) = requests (world σ) ++ [r]
          ∧ ∀ p n, r ≠ GenerateText p n)
  ∧ (∀ a τ, let τ' := exec (fire (ShowTyping text) a) τ in
       timers (world τ') = timers (world τ) ++ [(time (world τ) + 2000, Respond text)]
       ∧ isAiTyping (comp τ') = true
       ∧ messages (comp τ') = messages (comp τ)
       ∧ requests (world τ') = requests (world τ))
  ∧ (∀ a τ, let τ' := exec (fire (Respond text) a) τ in
       outcome (fire (Respond text) a) τ = Ok tt
       ∧ requests (world τ')
         = requests (world τ) ++ [GenerateText (responsePrompt text) 150]
       ∧ (∃ m, messages (comp τ') = messages (comp τ) ++ [m]
               ∧ Message.type m = ai ∧ Message.content m = reply a)
       ∧ isAiTyping (comp τ') = false
       ∧ timers (world τ') = timers (world τ))
  ∧ (timers (world σ) = [] →
     ∀ a1 a2, let σ3 := exec (runTimer a1 ;; runTimer a2) σ1 in
       outcome (runTimer a1 ;; runTimer a2) σ1 = Ok true
       ∧ time (world σ3) = time (world σ) + 500 + 2000
       ∧ timers (world σ3) = []
       ∧ (∃ r, requests (world σ3)
               = requests (world σ) ++ [r; GenerateText (responsePrompt text) 150]
               ∧ ∀ p n, r ≠ GenerateText p n)
       ∧ ∃ m1 m2, messages (comp σ3) = messages (comp σ) ++ [m1; m2]
                  ∧ Message.type m1 = user ∧ Message.content m1 = text
                  ∧ Message.type m2 = ai ∧ Message.content m2 = reply a2).
Proof.
  intros text Hword Hp σ1 reply.
  assert (Hm : mentionsAssistant text = true).
  { apply mentionsAssistant_spec. tauto. }
  assert (Hrun := sendMessage_schedules u w σ Hm Hp).
  subst σ1. unfold exec. rewrite Hrun. clear Hrun. cbn. fold text.
  split; [| split; [| split]].
  - split; [done |]. split; [by eexists |]. by eexists.
  - intros a τ. by cbn.
  - intros a τ. unfold reply, outcome, fire, generateAIResponse.
    destruct (completion a) eqn:Ea; cbn.
    + repeat split. by eexists.
    + repeat split. by eexists.
  - intros Ht a1 a2. rewrite Ht. unfold reply, outcome, runTimer, takeTimer. cbn.
    assert (Hmax1 : time (world σ) `max` (time (world σ) + 500)
                    = time (world σ) + 500) by lia.
    rewrite !Hmax1.
    assert (Hmax2 : (time (world σ) + 500) `max` (time (world σ) + 500 + 2000)
                    = time (world σ) + 500 + 2000) by lia.
    destruct (completion a2) eqn:Ea; cbn; rewrite Hmax2.
    + repeat split; [by eexists; rewrite <- app_assoc |].
      eexists _, _. by rewrite <- app_assoc.
    + repeat split; [by eexists; rewrite <- app_assoc |].
      eexists _, _. by rewrite <- app_assoc.
Qed.

End TeamChat.

Lemma team_reply_witness :
  (ci_substring "help" (ChatWorkspace.newMessage (comp Sample.team))
   ∧ ChatWorkspace.published Sample.publish_ok = Ok tt
   ∧ timers (world Sample.team) = [])
  ∧ let σ3 := exec (ChatWorkspace.runTimer Sample.reply_rejected ;;
                    ChatWorkspace.runTimer Sample.reply_rejected)
                (exec (ChatWorkspace.sendMessage Sample.ada Sample.publish_ok)
                   Sample.team) in
    time (world σ3) = 2500
    ∧ timers (world σ3) = []
    ∧ (Message.content <$> ChatWorkspace.messages (comp σ3))
      = ["Can someone HELP with the roster?"; ChatWorkspace.fallback].
Proof.
  assert (Hword : ci_substring "help" (ChatWorkspace.newMessage (comp Sample.team))).
  { by exists "Can someone ", "HELP", " with the roster?". }
  split; [by repeat split |].
  destruct (team_message_for_assistant_gets_one_reply Sample.ada Sample.publish_ok
              Sample.team (or_introl Hword) eq_refl) as (_ & _ & _ & Hloop).
  destruct (Hloop eq_refl Sample.reply_rejected Sample.reply_rejected)
    as (_ & Ht & Hq & _ & (m1 & m2 & Hm & _ & Hc1 & _ & Hc2)).
  cbv zeta. rewrite Ht, Hq, Hm. cbn. by rewrite Hc1, Hc2.
Defined.

(** The claim C8 fails when the publication is rejected: the message of the
    user is in the transcript, but no timer is pending, so no completion is
    requested and no message of the assistant follows. *)
Lemma team_message_unpublished_gets_no_reply :
  let σ := Sample.team in
  let σ1 := exec (ChatWorkspace.sendMessage Sample.ada Sample.publish_rejected) σ in
  ci_substring "help" (ChatWorkspace.newMessage (comp σ))
  ∧ timers (world σ1) = []
  ∧ ChatWorkspace.runTimer Sample.reply_rejected σ1 = (Ok false, σ1)
  ∧ (Message.type <$> ChatWorkspace.messages (comp σ1)) = [user]
  ∧ (∀ p n, ¬ (GenerateText p n ∈ requests (world σ1)))
  ∧ console (world σ1) = [("Failed to send message:", Failure "offline")].
Proof.
  cbv zeta. split; [by exists "Can someone ", "HELP", " with the roster?" |].
  split; [reflexivity |]. split; [reflexivity |]. split; [reflexivity |].
  split; [| reflexivity].
  intros p n H. apply list_elem_of_singleton in H. discriminate.
Qed.

(** ** More on the catalog: storage *)

Section CatalogStorage.
Import DataChat.

Lemma storageKey_inj (u v : User.t) :
  storageKey u = storageKey v → User.id u = User.id v.
Proof. unfold storageKey. apply (inj (String.app _)). Qed.

Lemma saveDataSources_run (l : list DataSource.t) (answer : Res User.t)
    (σ : Store State) :
  saveDataSources l answer σ =
  (Ok tt,
   {| comp := comp σ;
      world :=
        match answer with
        | Ok u => with_localStorage (<[storageKey u := l]> (localStorage (world σ)))
                    (with_requests (requests (world σ) ++ [AuthMe]) (world σ))
        | Throw e => with_console
                       (console (world σ) ++ [("Failed to save data sources:", e)])
                       (with_requests (requests (world σ) ++ [AuthMe]) (world σ))
        end |}).
Proof. by destruct answer. Qed.

Lemma loadDataSources_run (answer : Res User.t) (σ : Store State) :
  loadDataSources answer σ =
  (Ok tt,
   match answer with
   | Ok u =>
       {| comp := with_loading false (with_dataSources (persisted u σ) (comp σ));
          world := with_requests (requests (world σ) ++ [AuthMe]) (world σ) |}
   | Throw e =>
       {| comp := with_loading false (comp σ);
          world := with_console
                     (console (world σ) ++ [("Failed to load data sources:", e)])
                     (with_requests (requests (world σ) ++ [AuthMe]) (world σ)) |}
   end).
Proof.
  destruct answer; [| done]. unfold loadDataSources, persisted. cbn.
  by destruct (localStorage (world σ) !! storageKey a).
Qed.

(** X2. Catalogs are kept per user: a save for one user does not change the
    persisted collection of a user with another id, nor what a load for that
    user reads. *)
Theorem save_is_per_user (l : list DataSource.t) (u v : User.t) (σ : Store State) :
  User.id u ≠ User.id v →
  persisted v (exec (saveDataSources l (Ok u)) σ) = persisted v σ
  ∧ dataSources (comp (exec (saveDataSources l (Ok u) ;; loadDataSources (Ok v)) σ))
    = persisted v σ.
Proof.
  intros Hne.
  assert (Hk : storageKey u ≠ storageKey v) by (intros H; by apply Hne, storageKey_inj).
  unfold exec, bind. rewrite saveDataSources_run, loadDataSources_run.
  unfold persisted. cbn. by rewrite lookup_insert_ne.
Qed.

(** X3. [loadDataSources] never writes local storage and always ends with
    [loading] cleared. With the user known it reads the stored collection,
    the empty one when nothing is stored; when the user lookup is rejected
    it only logs, and the collection in memory stays as it was. *)
Theorem load_never_writes_storage (answer : Res User.t) (σ : Store State) :
  let σ' := exec (loadDataSources answer) σ in
  outcome (loadDataSources answer) σ = Ok tt
  ∧ localStorage (world σ') = localStorage (world σ)
  ∧ loading (comp σ') = false
  ∧ (∀ u, answer = Ok u →
       dataSources (comp σ') = default [] (localStorage (world σ) !! storageKey u)
       ∧ console (world σ') = console (world σ))
  ∧ (∀ e, answer = Throw e →
       dataSources (comp σ') = dataSources (comp σ)
       ∧ console (world σ')
         = console (world σ) ++ [("Failed to load data sources:", e)]).
Proof.
  cbv zeta. unfold exec, outcome. rewrite loadDataSources_run.
  destruct answer; cbn; split_and!; try done.
  - by intros u [= <-].
  - by intros e' [= <-].
Qed.

(** X4. [saveDataSources] never throws and never touches the state of the
    component. When its user lookup is rejected nothing is written and the
    error is logged; otherwise exactly the entry of that user is written. *)
Theorem save_failure_is_silent (l : list DataSource.t) (answer : Res User.t)
    (σ : Store State) :
  let σ' := exec (saveDataSources l answer) σ in
  outcome (saveDataSources l answer) σ = Ok tt
  ∧ comp σ' = comp σ
  ∧ (∀ e, answer = Throw e →
       localStorage (world σ') = localStorage (world σ)
       ∧ console (world σ')
         = console (world σ) ++ [("Failed to save data sources:", e)])
  ∧ (∀ u, answer = Ok u →
       localStorage (world σ') !! storageKey u = Some l
       ∧ (∀ k, k ≠ storageKey u →
            localStorage (world σ') !! k = localStorage (world σ) !! k)
       ∧ console (world σ') = console (world σ)).
Proof.
  cbv zeta. unfold exec, outcome. rewrite saveDataSources_run.
  destruct answer; cbn; split_and!; try done.
  - intros u [= <-]. split_and!; [apply lookup_insert_eq | | done].
    intros k Hk. by apply lookup_insert_ne.
  - by intros e' [= <-].
Qed.

End CatalogStorage.

Lemma save_is_per_user_witness :
  User.id Sample.ada ≠ User.id Fixture.bob
  ∧ persisted Fixture.bob
      (exec (DataChat.saveDataSources [Sample.ledger] (Ok Sample.ada)) Sample.loaded)
    = [].
Proof.
  assert (H : User.id Sample.ada ≠ User.id Fixture.bob) by discriminate.
  split; [exact H |].
  by rewrite (proj1 (save_is_per_user [Sample.ledger] Sample.ada Fixture.bob
                       Sample.loaded H)).
Defined.

(** ** More on the catalog: adding *)

Section AddMore.

Import DataChat.

Variable file : File.t.
Variable w : UploadAnswers.
Variable σ : Store State.

(** X5. The upload stops at the first step that is rejected: the steps after
    it are never requested. The requests go out in the order user lookup,
    storage upload, content extraction, structured analysis, and, only when
    all four succeed, the user lookup of the save. *)
Theorem upload_stops_at_first_rejection :
  let sent := requests (world (exec (handleFileUpload (Some setSelectedDataSource)
                                       (Some file) w) σ)) in
  let before := requests (world σ) in
  (failed (me w) → sent = before ++ [AuthMe])
  ∧ ∀ u, me w = Ok u →
      let store := StorageUpload file
                     ("data-sources/" +:+ User.id u +:+ "/" +:+ File.name file) true in
      let extract := ExtractFromBlob file true 2000 in
      (failed (uploaded w) → sent = before ++ [AuthMe; store])
      ∧ ∀ url, uploaded w = Ok url →
          (failed (extracted w) → sent = before ++ [AuthMe; store; extract])
          ∧ ∀ x, extracted w = Ok x →
              let analyse := GenerateObject (analysisPrompt file x) in
              (failed (analysed w) →
               sent = before ++ [AuthMe; store; extract; analyse])
              ∧ ∀ a, analysed w = Ok a →
                  sent = before ++ [AuthMe; store; extract; analyse; AuthMe].
Proof.
  cbv zeta. unfold exec, handleFileUpload. split.
  - intros [e ->]. reflexivity.
  - intros u ->. split.
    + intros [e ->]. cbn. by rewrite <- app_assoc.
    + intros url ->. split.
      * intros [e ->]. cbn. by rewrite <- !app_assoc.
      * intros x ->. split.
        -- intros [e ->]. cbn. by rewrite <- !app_assoc.
        -- intros a ->. destruct (save_me w); cbn; by rewrite <- !app_assoc.
Qed.

(** X6. When every step of an add succeeds except the user lookup of the
    save, the new data source is still shown at the front and selected and
    the dialog is closed, but local storage is left as it was and the only
    trace is a logged error: a later load does not bring the data source
    back. *)
Theorem add_with_rejected_save_is_lost_on_reload (u : User.t) (url : string)
    (x : Extracted) (a : Analysis.t) (e : Exn) :
  me w = Ok u → uploaded w = Ok url → extracted w = Ok x → analysed w = Ok a →
  save_me w = Throw e →
  let new := newDataSource file u url a (now_id w) (now_date w) in
  let σ' := exec (handleFileUpload (Some setSelectedDataSource) (Some file) w) σ in
  outcome (handleFileUpload (Some setSelectedDataSource) (Some file) w) σ = Ok tt
  ∧ dataSources (comp σ') = new :: dataSources (comp σ)
  ∧ selectedDataSource (comp σ') = Some new
  ∧ showUploadDialog (comp σ') = false
  ∧ uploading (comp σ') = false
  ∧ localStorage (world σ') = localStorage (world σ)
  ∧ console (world σ')
    = console (world σ) ++ [("Failed to save data sources:", e)]
  ∧ ∀ v, dataSources (comp (exec (loadDataSources (Ok v)) σ')) = persisted v σ.
Proof.
  intros E1 E2 E3 E4 E5. cbv zeta.
  unfold exec, outcome, handleFileUpload. rewrite E1, E2, E3, E4, E5. cbn.
  by split_and!.
Qed.

End AddMore.

Lemma add_with_rejected_save_witness :
  DataChat.save_me Fixture.save_rejected = Throw (Failure "session expired")
  ∧ let σ' := exec (DataChat.handleFileUpload (Some DataChat.setSelectedDataSource)
                      (Some Sample.customers_csv) Fixture.save_rejected)
                Sample.loaded in
    length (DataChat.dataSources (comp σ')) = 3%nat
    ∧ DataChat.dataSources (comp (exec (DataChat.loadDataSources (Ok Sample.ada)) σ'))
      = [Sample.orders; Sample.ledger].
Proof.
  split; [reflexivity |].
  destruct (add_with_rejected_save_is_lost_on_reload Sample.customers_csv
              Fixture.save_rejected Sample.loaded Sample.ada
              "https://files.example.org/customers.csv" (Text "id,name,email")
              Sample.roster (Failure "session expired")
              eq_refl eq_refl eq_refl eq_refl eq_refl)
    as (_ & Hm & _ & _ & _ & _ & _ & Hload).
  cbv zeta. by rewrite Hm, (Hload Sample.ada).
Defined.

(** ** More on the catalog: ids *)

Section Ids.

Import DataChat.

Lemma toString_inj (n m : Z) : JS.toString n = JS.toString m → n = m.
Proof.
  unfold JS.toString. intros H. apply DecimalZ.to_int_inj.
  apply (f_equal NilEmpty.int_of_string) in H.
  rewrite !NilEmpty.isi in H. by injection H.
Qed.

(** X7. The id of an added data source is its first clock reading and
    nothing else: two adds get the same id exactly when they read the same
    millisecond, whatever the files, users and analyses are. *)
Theorem added_id_is_the_clock_reading (f f' : File.t) (u u' : User.t)
    (url url' : string) (a a' : Analysis.t) (n n' d d' : Z) :
  DataSource.id (newDataSource f u url a n d)
  = DataSource.id (newDataSource f' u' url' a' n' d')
  ↔ n = n'.
Proof.
  cbn. split; [| by intros ->].
  intros H. by apply (inj (String.app _)), toString_inj in H.
Qed.

Lemma without_ids (id : string) (l : list DataSource.t) (i : string) :
  i ∈ DataSource.id <$> without id l → i ∈ DataSource.id <$> l ∧ i ≠ id.
Proof.
  unfold without. induction l as [|ds l IH]; cbn; [by intros ?%elem_of_nil |].
  destruct (String.eqb (DataSource.id ds) id) eqn:E; cbn.
  - intros H. destruct (IH H). split; [apply elem_of_cons; by right | done].
  - intros [-> | H]%elem_of_cons.
    + split; [apply elem_of_cons; by left | by apply String.eqb_neq].
    + destruct (IH H). split; [apply elem_of_cons; by right | done].
Qed.

Lemma filter_all_in {A} (f : A → bool) (l : list A) :
  (∀ x, x ∈ l → f x = true) → List.filter f l = l.
Proof.
  induction l as [|x l IH]; intros Hf; cbn; [done |].
  rewrite Hf by (apply elem_of_cons; by left).
  f_equal. apply IH. intros y Hy. apply Hf, elem_of_cons. by right.
Qed.

Lemma without_absent (id : string) (l : list DataSource.t) :
  id ∉ DataSource.id <$> l → without id l = l.
Proof.
  intros H. apply filter_all_in. intros ds Hds.
  apply negb_true_iff, String.eqb_neq. intros <-.
  apply H, list_elem_of_fmap. by exists ds.
Qed.

Lemma without_NoDup (id : string) (l : list DataSource.t) :
  NoDup (DataSource.id <$> l) → NoDup (DataSource.id <$> without id l).
Proof.
  induction l as [|ds l IH]; [done |]. cbn.
  intros [Hds Hl]%NoDup_cons. unfold without in *. cbn.
  destruct (String.eqb (DataSource.id ds) id); cbn; [by apply IH |].
  apply NoDup_cons. split; [| by apply IH].
  intros H. by apply without_ids in H as [H _].
Qed.

Lemma without_length (id : string) (l : list DataSource.t) :
  NoDup (DataSource.id <$> l) → id ∈ DataSource.id <$> l →
  (length (without id l) + 1 = length l)%nat.
Proof.
  induction l as [|ds l IH]; cbn; [by intros _ ?%elem_of_nil |].
  intros [Hds Hl]%NoDup_cons Hin. unfold without in *. cbn.
  destruct (String.eqb (DataSource.id ds) id) eqn:E; cbn.
  - apply String.eqb_eq in E. subst id.
    fold (without (DataSource.id ds) l). rewrite without_absent by done. lia.
  - apply String.eqb_neq in E.
    apply elem_of_cons in Hin as [-> | Hin]; [done |]. rewrite <- IH; [lia | done..].
Qed.

End Ids.

Section IdsOfTheCatalog.

Import DataChat.

(** X8. Two adds that read the same millisecond give their data sources the
    same id, and removing that id then removes both: the collection in
    memory is the one from before the two adds, without the entries of that
    id. *)
Theorem same_millisecond_adds_are_removed_together (f1 f2 : File.t)
    (w1 w2 : UploadAnswers) (σ : Store State) (u1 u2 : User.t)
    (url1 url2 : string) (x1 x2 : Extracted) (a1 a2 : Analysis.t)
    (answer : Res User.t) :
  me w1 = Ok u1 → uploaded w1 = Ok url1 → extracted w1 = Ok x1 →
  analysed w1 = Ok a1 →
  me w2 = Ok u2 → uploaded w2 = Ok url2 → extracted w2 = Ok x2 →
  analysed w2 = Ok a2 →
  now_id w1 = now_id w2 →
  let σ1 := exec (handleFileUpload (Some setSelectedDataSource) (Some f1) w1) σ in
  let σ2 := exec (handleFileUpload (Some setSelectedDataSource) (Some f2) w2) σ1 in
  let id := "ds_" +:+ JS.toString (now_id w1) in
  let σ3 := exec (deleteDataSource id answer) σ2 in
  ids σ2 = id :: id :: ids σ
  ∧ dataSources (comp σ3) = without id (dataSources (comp σ))
  ∧ (id ∉ ids σ → dataSources (comp σ3) = dataSources (comp σ)).
Proof.
  intros E1 E2 E3 E4 E5 E6 E7 E8 Hsame σ1 σ2 id σ3.
  destruct (handleFileUpload_adds f1 w1 σ u1 url1 x1 a1 E1 E2 E3 E4) as (H1 & _).
  destruct (handleFileUpload_adds f2 w2 σ1 u2 url2 x2 a2 E5 E6 E7 E8) as (H2 & _).
  fold σ1 in H1, H2. fold σ2 in H2.
  destruct (deleteDataSource_run id answer σ2) as (_ & H3 & _). fold σ3 in H3.
  assert (Hids : ids σ2 = id :: id :: ids σ).
  { unfold ids. rewrite H2, H1. cbn. by rewrite <- Hsame. }
  assert (Hdel : dataSources (comp σ3) = without id (dataSources (comp σ))).
  { rewrite H3. cbn. rewrite H2, H1. unfold without. cbn.
    rewrite <- Hsame. fold id. by rewrite String.eqb_refl. }
  split_and!; [done.. |].
  intros Hfresh. rewrite Hdel. by apply without_absent.
Qed.

(** X9. Distinct ids are kept distinct: when the ids of the collection in
    memory are pairwise distinct, they still are after any removal and after
    any add whose id is not in the collection yet; a removal then takes out
    exactly one entry when the id is in the collection, and no entry of the
    removed id is left in any case. *)
Theorem ids_stay_distinct (σ : Store State) :
  NoDup (ids σ) →
  (∀ id answer,
     let σ' := exec (deleteDataSource id answer) σ in
     NoDup (ids σ')
     ∧ ¬ (id ∈ ids σ')
     ∧ (id ∈ ids σ →
        (length (dataSources (comp σ')) + 1 = length (dataSources (comp σ)))%nat))
  ∧ (∀ file w u url x a,
       me w = Ok u → uploaded w = Ok url → extracted w = Ok x →
       analysed w = Ok a →
       "ds_" +:+ JS.toString (now_id w) ∉ ids σ →
       NoDup (ids (exec (handleFileUpload (Some setSelectedDataSource)
                           (Some file) w) σ))).
Proof.
  intros Hnd. split.
  - intros id answer σ'.
    destruct (deleteDataSource_run id answer σ) as (_ & Hc & _). fold σ' in Hc.
    unfold ids. rewrite Hc. cbn. fold (without id (dataSources (comp σ))).
    split_and!.
    + by apply without_NoDup.
    + intros H. by apply without_ids in H as [_ H].
    + intros Hin. by apply without_length.
  - intros file w u url x a E1 E2 E3 E4 Hfresh.
    destruct (handleFileUpload_adds file w σ u url x a E1 E2 E3 E4) as (Hm & _).
    unfold ids. rewrite Hm. cbn. by apply NoDup_cons.
Qed.

End IdsOfTheCatalog.

Lemma same_millisecond_adds_witness :
  DataChat.now_id Sample.upload_ok = DataChat.now_id Fixture.upload_same_ms
  ∧ let σ2 := exec (DataChat.handleFileUpload (Some DataChat.setSelectedDataSource)
                      (Some Fixture.orders_json) Fixture.upload_same_ms)
                (exec (DataChat.handleFileUpload (Some DataChat.setSelectedDataSource)
                         (Some Sample.customers_csv) Sample.upload_ok)
                   Sample.loaded) in
    length (DataChat.dataSources (comp σ2)) = 4%nat
    ∧ DataChat.dataSources
        (comp (exec (DataChat.deleteDataSource "ds_1700000000000" (Ok Sample.ada)) σ2))
      = [Sample.orders; Sample.ledger].
Proof.
  split; [reflexivity |]. split; [reflexivity |].
  destruct (same_millisecond_adds_are_removed_together Sample.customers_csv
              Fixture.orders_json Sample.upload_ok Fixture.upload_same_ms
              Sample.loaded Sample.ada Sample.ada
              "https://files.example.org/customers.csv"
              "https://files.example.org/orders.json"
              (Text "id,name,email") (Chunks ["[{"; "}]"])
              Sample.roster Sample.roster (Ok Sample.ada)
              eq_refl eq_refl eq_refl eq_refl eq_refl eq_refl eq_refl eq_refl
              eq_refl)
    as (_ & Hdel & _).
  exact Hdel.
Defined.

Lemma ids_stay_distinct_witness :
  NoDup (ids Sample.loaded)
  ∧ let σ' := exec (DataChat.deleteDataSource "ds_1500000000000" (Ok Sample.ada))
                Sample.loaded in
    NoDup (ids σ')
    ∧ length (DataChat.dataSources (comp σ')) = 1%nat.
Proof.
  assert (H : NoDup (ids Sample.loaded)).
  { apply (bool_decide_unpack _). by vm_compute. }
  split; [exact H |].
  destruct (ids_stay_distinct Sample.loaded H) as [Hdel _].
  destruct (Hdel "ds_1500000000000" (Ok Sample.ada)) as (Hnd & _ & _).
  split; [exact Hnd | reflexivity].
Defined.

(** ** More on the catalog: removal, search and selection *)

Section RemoveAndSearch.

Import DataChat.

Lemma filter_swap {A} (f g : A → bool) (l : list A) :
  List.filter f (List.filter g l) = List.filter g (List.filter f l).
Proof.
  induction l as [|x l IH]; cbn; [done |].
  destruct (f x) eqn:Ef, (g x) eqn:Eg; cbn; rewrite ?Ef, ?Eg; by rewrite IH.
Qed.

Lemma filter_refine {A} (f g : A → bool) (l : list A) :
  (∀ x, g x = true → f x = true) →
  List.filter g (List.filter f l) = List.filter g l.
Proof.
  intros Hgf. induction l as [|x l IH]; cbn; [done |].
  destruct (f x) eqn:Ef; cbn.
  - by rewrite IH.
  - destruct (g x) eqn:Eg; [| done]. apply Hgf in Eg. congruence.
Qed.

(** The request that an ask sends. *)
Lemma sendMessage_requests (w : AskAnswers) (τ : Store State) (ds : DataSource.t) :
  selectedDataSource (comp τ) = Some ds →
  blank (newMessage (comp τ)) = false →
  requests (world (exec (sendMessage w) τ))
  = requests (world τ)
    ++ [GenerateText (askPrompt ds (dataContent (comp τ)) (newMessage (comp τ))) 500].
Proof.
  intros Hsel Hblank. unfold exec, sendMessage. cbn.
  rewrite trim_blank, Hblank, Hsel. cbn. by destruct (completion w).
Qed.

(** X10. A removal changes only the collection: the selection of the page and
    the chat are as before. So the removed data source stays selected when
    it was selected, the chat keeps its transcript, and the next question
    is still sent for the removed data source. *)
Theorem remove_leaves_selection_and_chat (id : string) (answer : Res User.t)
    (σ : Store State) :
  let σ' := exec (deleteDataSource id answer) σ in
  selectedDataSource (comp σ') = selectedDataSource (comp σ)
  ∧ messages (comp σ') = messages (comp σ)
  ∧ dataContent (comp σ') = dataContent (comp σ)
  ∧ newMessage (comp σ') = newMessage (comp σ)
  ∧ ∀ ds, selectedDataSource (comp σ) = Some ds → DataSource.id ds = id →
      ¬ (ds ∈ dataSources (comp σ'))
      ∧ ∀ w, blank (newMessage (comp σ)) = false →
          requests (world (exec (sendMessage w) σ'))
          = requests (world σ')
            ++ [GenerateText
                  (askPrompt ds (dataContent (comp σ)) (newMessage (comp σ))) 500].
Proof.
  intros σ'.
  destruct (deleteDataSource_run id answer σ) as (_ & Hc & _). fold σ' in Hc.
  assert (Hs : selectedDataSource (comp σ') = selectedDataSource (comp σ))
    by (by rewrite Hc).
  assert (Hd : dataContent (comp σ') = dataContent (comp σ)) by (by rewrite Hc).
  assert (Hn : newMessage (comp σ') = newMessage (comp σ)) by (by rewrite Hc).
  split_and!; [done | by rewrite Hc | done | done |].
  intros ds Hsel Hid. split.
  - rewrite Hc. cbn. intros Hin.
    apply list_elem_of_In, List.filter_In in Hin as [_ Hin].
    apply negb_true_iff, String.eqb_neq in Hin. by destruct Hin.
  - intros w Hblank. rewrite <- Hd, <- Hn.
    apply sendMessage_requests; [by rewrite Hs | by rewrite Hn].
Qed.

(** X11. Search and removal commute: the search result after a removal is the
    search result from before it without the entries of the removed id. *)
Theorem search_commutes_with_removal (id : string) (answer : Res User.t)
    (σ : Store State) :
  filteredDataSources (comp (exec (deleteDataSource id answer) σ))
  = without id (filteredDataSources (comp σ)).
Proof.
  destruct (deleteDataSource_run id answer σ) as (_ & Hc & _).
  rewrite Hc. unfold filteredDataSources, without. cbn. apply filter_swap.
Qed.

(** X12. After a successful add the search shows the new data source first
    when it matches the query that is typed, and the results from before
    the add after it; when it does not match, the results are as before. *)
Theorem search_after_add (file : File.t) (w : UploadAnswers) (σ : Store State)
    (u : User.t) (url : string) (x : Extracted) (a : Analysis.t) :
  me w = Ok u → uploaded w = Ok url → extracted w = Ok x → analysed w = Ok a →
  let new := newDataSource file u url a (now_id w) (now_date w) in
  let σ' := exec (handleFileUpload (Some setSelectedDataSource) (Some file) w) σ in
  (matches (searchQuery (comp σ)) new →
   filteredDataSources (comp σ') = new :: filteredDataSources (comp σ))
  ∧ (¬ matches (searchQuery (comp σ)) new →
     filteredDataSources (comp σ') = filteredDataSources (comp σ)).
Proof.
  intros E1 E2 E3 E4 new σ'.
  destruct (handleFileUpload_adds file w σ u url x a E1 E2 E3 E4) as (Hm & _).
  fold new σ' in Hm.
  assert (Hq : searchQuery (comp σ') = searchQuery (comp σ)).
  { subst σ'. unfold exec, handleFileUpload. rewrite E1, E2, E3, E4.
    by destruct (save_me w). }
  unfold filteredDataSources. rewrite Hm, Hq. cbn.
  pose proof (search_test_spec (searchQuery (comp σ)) new) as Hspec.
  destruct (_ || _) eqn:E in Hspec |- *.
  - split; [done |]. intros Hno. destruct Hno. by apply Hspec.
  - split; [| done]. intros Hyes. apply Hspec in Hyes. discriminate.
Qed.

Lemma ci_substring_trans (q q' s : string) :
  ci_substring q q' → ci_substring q' s → ci_substring q s.
Proof.
  intros (a & m & b & -> & Hm) Hs. apply ci_includes.
  apply ci_includes, includes_spec in Hs as (pre & post & Hs).
  apply includes_spec.
  exists (pre +:+ JS.toLowerCase a), (JS.toLowerCase b +:+ post).
  rewrite Hs, !toLowerCase_append, Hm. by rewrite !append_assoc.
Qed.

(** X13. Refining the query narrows the search: when the query [q] occurs in
    the query [q'] up to case, searching for [q'] gives the same result as
    searching for [q'] among the results for [q]; so every result for [q']
    is a result for [q], and there are no more of them. *)
Theorem refining_the_query_narrows_the_search (s : State) (q q' : string) :
  ci_substring q q' →
  let found := filteredDataSources (with_searchQuery q s) in
  let found' := filteredDataSources (with_searchQuery q' s) in
  found' = filteredDataSources (with_searchQuery q' (with_dataSources found s))
  ∧ (∀ ds, ds ∈ found' → ds ∈ found)
  ∧ (length found' ≤ length found)%nat.
Proof.
  intros Hq found found'.
  assert (Heq : filteredDataSources
                  (with_searchQuery q' (with_dataSources found s)) = found').
  { subst found found'. unfold filteredDataSources. cbn.
    apply filter_refine. intros ds H.
    apply search_test_spec. apply search_test_spec in H.
    destruct H as [H | (d & Hd & H)].
    - left. by apply (ci_substring_trans q q').
    - right. exists d. split; [done |]. by apply (ci_substring_trans q q'). }
  split; [done |]. rewrite <- Heq. unfold filteredDataSources. cbn. split.
  - intros ds Hds.
    by apply list_elem_of_In, List.filter_In in Hds as [Hds%list_elem_of_In _].
  - apply List.filter_length_le.
Qed.

End RemoveAndSearch.

Lemma refining_the_query_witness :
  ci_substring "ord" "ORDERS."
  ∧ DataChat.filteredDataSources
      (DataChat.with_searchQuery "ORDERS." (comp Sample.loaded))
    = DataChat.filteredDataSources
        (DataChat.with_searchQuery "ORDERS."
           (DataChat.with_dataSources
              (DataChat.filteredDataSources
                 (DataChat.with_searchQuery "ord" (comp Sample.loaded)))
              (comp Sample.loaded))).
Proof.
  assert (H : ci_substring "ord" "ORDERS.") by (by exists EmptyString, "ORD", "ERS.").
  split; [exact H |].
  exact (proj1 (refining_the_query_narrows_the_search (comp Sample.loaded)
                  "ord" "ORDERS." H)).
Defined.

Lemma search_after_add_witness :
  matches (DataChat.searchQuery (comp Sample.loaded))
    (DataChat.newDataSource Sample.customers_csv Sample.ada
       "https://files.example.org/customers.csv" Sample.roster
       1700000000000 1700000000001)
  ∧ length (DataChat.filteredDataSources
              (comp (exec (DataChat.handleFileUpload
                             (Some DataChat.setSelectedDataSource)
                             (Some Sample.customers_csv) Sample.upload_ok)
                       Sample.loaded)))
    = 3%nat.
Proof.
  assert (H : matches (DataChat.searchQuery (comp Sample.loaded))
                (DataChat.newDataSource Sample.customers_csv Sample.ada
                   "https://files.example.org/customers.csv" Sample.roster
                   1700000000000 1700000000001)).
  { left. by exists EmptyString, EmptyString, "customers.csv". }
  split; [exact H |].
  destruct (search_after_add Sample.customers_csv Sample.upload_ok Sample.loaded
              Sample.ada "https://files.example.org/customers.csv"
              (Text "id,name,email") Sample.roster
              eq_refl eq_refl eq_refl eq_refl) as [Hyes _].
  by rewrite (Hyes H).
Defined.

(** ** More on the data chat *)

Section DataChatMore.

Import DataChat DataChatInterface.

Lemma substring0_append (n : nat) (c extra : string) :
  (n ≤ String.length c)%nat →
  JS.substring0 n (c +:+ extra) = JS.substring0 n c.
Proof.
  unfold JS.substring0. revert c.
  induction n as [|n IH]; intros c Hn.
  - by destruct c, extra.
  - destruct c as [|x c]; cbn in Hn; [lia |].
    rewrite append_cons. cbn. f_equal. apply IH. lia.
Qed.

Lemma substring0_length (n : nat) (s : string) :
  (String.length (JS.substring0 n s) ≤ n)%nat.
Proof.
  unfold JS.substring0. revert s.
  induction n as [|n IH]; intros s; destruct s as [|x s]; cbn; try lia.
  specialize (IH s). lia.
Qed.

Lemma take_append {A} (n : nat) (l extra : list A) :
  (n ≤ length l)%nat → take n (l ++ extra) = take n l.
Proof. intros Hn. by rewrite take_app_le. Qed.

(** X14. [generateDataReport] does nothing without a selected data source.
    With one it sends exactly one completion request of 800 tokens and
    clears the typing flag in every case; the report is appended as one
    message of the assistant for that data source, and when the request is
    rejected the transcript is left as it was: the failure is only logged. *)
Theorem report_appends_the_report_or_nothing (w : ReportAnswers)
    (σ : Store State) :
  (selectedDataSource (comp σ) = None → generateDataReport w σ = (Ok tt, σ))
  ∧ ∀ ds, selectedDataSource (comp σ) = Some ds →
      let σ' := exec (generateDataReport w) σ in
      outcome (generateDataReport w) σ = Ok tt
      ∧ requests (world σ')
        = requests (world σ)
          ++ [GenerateText (reportPrompt ds (dataContent (comp σ))) 800]
      ∧ isAiTyping (comp σ') = false
      ∧ newMessage (comp σ') = newMessage (comp σ)
      ∧ (∀ text, report w = Ok text →
           console (world σ') = console (world σ)
           ∧ ∃ m, messages (comp σ') = messages (comp σ) ++ [m]
                  ∧ ChatMessage.type m = ai
                  ∧ ChatMessage.content m = text
                  ∧ ChatMessage.dataSource m = Some ds)
      ∧ (∀ e, report w = Throw e →
           messages (comp σ') = messages (comp σ)
           ∧ console (world σ')
             = console (world σ) ++ [("Failed to generate report:", e)]).
Proof.
  split.
  - intros Hsel. unfold generateDataReport. cbn. by rewrite Hsel.
  - intros ds Hsel. cbv zeta. unfold exec, outcome, generateDataReport. cbn.
    rewrite Hsel. cbn. destruct (report w) as [text|e]; cbn; split_and!; try done.
    + intros t [= <-]. split; [done |]. by eexists.
    + by intros e' [= <-].
Qed.

(** X15. The prompts carry a bounded sample of the content: what lies beyond
    the first 2000 units of the loaded content never reaches a question, what
    lies beyond the first 3000 never reaches a report, and the structured
    analysis of an upload sees only the first 1000 units of an extracted
    text or the first three chunks of a chunked one. *)
Theorem prompts_carry_a_bounded_sample :
  (∀ ds c extra q, (2000 ≤ String.length c)%nat →
     askPrompt ds (c +:+ extra) q = askPrompt ds c q)
  ∧ (∀ ds c extra, (3000 ≤ String.length c)%nat →
       reportPrompt ds (c +:+ extra) = reportPrompt ds c)
  ∧ (∀ file s extra, (1000 ≤ String.length s)%nat →
       analysisPrompt file (Text (s +:+ extra)) = analysisPrompt file (Text s))
  ∧ (∀ file l extra, (3 ≤ length l)%nat →
       analysisPrompt file (Chunks (l ++ extra)) = analysisPrompt file (Chunks l))
  ∧ (∀ c, (String.length (JS.substring0 2000 c) ≤ 2000)%nat
          ∧ (String.length (JS.substring0 3000 c) ≤ 3000)%nat
          ∧ (String.length (JS.substring0 1000 c) ≤ 1000)%nat).
Proof.
  split_and!.
  - intros ds c extra q H. unfold askPrompt. by rewrite substring0_append.
  - intros ds c extra H. unfold reportPrompt. by rewrite substring0_append.
  - intros file s extra H. unfold analysisPrompt, contentPreview.
    by rewrite substring0_append.
  - intros file l extra H. unfold analysisPrompt, contentPreview.
    by rewrite take_append.
  - intros c. split_and!; apply substring0_length.
Qed.

Lemma dataSourceEffect_run (ds : DataSource.t) (w : EffectAnswers) (σ : Store State) :
  dataSourceEffect (Some ds) w σ =
  (Ok tt,
   {| comp := with_messages [welcomeMessage ds w]
                (match DataSource.fileUrl ds, content w with
                 | Some (String _ _), Ok (Text s) => with_dataContent s (comp σ)
                 | Some (String _ _), Ok (Chunks l) =>
                     with_dataContent (JS.join JS.nl l) (comp σ)
                 | _, _ => comp σ
                 end);
      world := match DataSource.fileUrl ds with
               | Some (String c url) =>
                   let asked := with_requests
                                  (requests (world σ) ++ [ExtractFromUrl (String c url)])
                                  (world σ) in
                   match content w with
                   | Ok _ => asked
                   | Throw e =>
                       with_console
                         (console (world σ) ++ [("Failed to load data content:", e)])
                         asked
                   end
               | _ => world σ
               end |}).
Proof.
  unfold dataSourceEffect, loadDataContent, initializeChat. cbn.
  destruct (DataSource.fileUrl ds) as [[|c url]|]; cbn; [by destruct σ | | by destruct σ].
  by destruct (content w) as [[s|l]|e].
Qed.

(** X16. The effect on [dataSource] loads the content only for a data source
    with a non-empty file URL, with one extraction request for that URL. The
    loaded content is never cleared: for a data source without file URL, and
    when the extraction is rejected, the content that was loaded for the
    data source selected before stays in place. *)
Theorem effect_keeps_the_content_it_cannot_replace (ds : DataSource.t)
    (w : EffectAnswers) (σ : Store State) :
  let σ' := exec (dataSourceEffect (Some ds) w) σ in
  outcome (dataSourceEffect (Some ds) w) σ = Ok tt
  ∧ (DataSource.fileUrl ds = None ∨ DataSource.fileUrl ds = Some EmptyString →
     dataContent (comp σ') = dataContent (comp σ)
     ∧ requests (world σ') = requests (world σ))
  ∧ ∀ url, DataSource.fileUrl ds = Some url → url ≠ EmptyString →
      requests (world σ') = requests (world σ) ++ [ExtractFromUrl url]
      ∧ (∀ e, content w = Throw e →
           dataContent (comp σ') = dataContent (comp σ)
           ∧ console (world σ')
             = console (world σ) ++ [("Failed to load data content:", e)])
      ∧ (∀ s, content w = Ok (Text s) → dataContent (comp σ') = s)
      ∧ (∀ l, content w = Ok (Chunks l) →
           dataContent (comp σ') = JS.join JS.nl l).
Proof.
  cbv zeta. unfold exec, outcome. rewrite dataSourceEffect_run. cbn.
  split_and!; [done | |].
  - by intros [-> | ->].
  - intros url -> Hurl. destruct url as [|c url]; [done |].
    destruct (content w) as [[s|l]|e]; cbn; split_and!; try done.
    all: by intros ? [= <-].
Qed.

Lemma exec_then {C A B} (m : M C A) (k : M C B) (σ : Store C) (a : A) :
  outcome m σ = Ok a → exec (m ;; k) σ = exec k (exec m σ).
Proof.
  unfold outcome, exec, bind. by destruct (m σ) as [[a'|e] σ1]; intros [=].
Qed.

(** X17. A question asked after the selection moved to a data source whose
    content could not be loaded carries the sample of the content loaded
    before: the prompt names the new data source and holds the old
    content. *)
Theorem question_after_switch_carries_the_previous_sample (b : DataSource.t)
    (e : EffectAnswers) (q : string) (w : AskAnswers) (σ : Store State) :
  DataSource.fileUrl b = None ∨ failed (content e) →
  blank q = false →
  let σ' := exec (setSelectedDataSource b ;; dataSourceEffect (Some b) e ;;
                  setNewMessage q ;; sendMessage w) σ in
  ∃ sent, requests (world σ')
          = requests (world σ) ++ sent
            ++ [GenerateText (askPrompt b (dataContent (comp σ)) q) 500]
          ∧ ∀ r, r ∈ sent → ∃ url, r = ExtractFromUrl url.
Proof.
  intros Hb Hq σ'.
  set (σ2 := exec (dataSourceEffect (Some b) e) (exec (setSelectedDataSource b) σ)).
  set (σ3 := exec (setNewMessage q) σ2).
  assert (Hrun : σ' = exec (sendMessage w) σ3).
  { subst σ' σ3 σ2.
    rewrite (exec_then (setSelectedDataSource b) _ σ tt eq_refl).
    rewrite (exec_then (dataSourceEffect (Some b) e) _ _ tt)
      by (unfold outcome; by rewrite dataSourceEffect_run).
    by rewrite (exec_then (setNewMessage q) _ _ tt eq_refl). }
  assert (H2 : σ2 = snd (dataSourceEffect (Some b) e (exec (setSelectedDataSource b) σ)))
    by done.
  rewrite dataSourceEffect_run in H2. cbn in H2.
  assert (H3 : comp σ3 = with_newMessage q (comp σ2)) by done.
  assert (Hw3 : world σ3 = world σ2) by done.
  assert (Hsel : selectedDataSource (comp σ3) = Some b).
  { rewrite H3, H2. cbn. by destruct (DataSource.fileUrl b) as [[|? ?]|], (content e) as [[?|?]|?]. }
  assert (Hnew : newMessage (comp σ3) = q) by (by rewrite H3).
  assert (Hcontent : dataContent (comp σ3) = dataContent (comp σ)).
  { rewrite H3, H2. cbn. destruct (DataSource.fileUrl b) as [[|c url]|]; try done.
    by destruct Hb as [[=] | [x ->]]. }
  rewrite Hrun, (sendMessage_requests w σ3 b Hsel); [| by rewrite Hnew].
  rewrite Hnew, Hcontent, Hw3.
  assert (Hreq : ∃ sent, requests (world σ2) = requests (world σ) ++ sent
                         ∧ ∀ r, r ∈ sent → ∃ url, r = ExtractFromUrl url).
  { rewrite H2. cbn. destruct (DataSource.fileUrl b) as [[|c url]|]; cbn.
    - exists []. rewrite app_nil_r. split; [done |]. by intros r ?%elem_of_nil.
    - exists [ExtractFromUrl (String c url)]. split; [by destruct (content e) |].
      intros r ->%list_elem_of_singleton. by eexists.
    - exists []. rewrite app_nil_r. split; [done |]. by intros r ?%elem_of_nil. }
  destruct Hreq as (sent & -> & Hsent). exists sent.
  by rewrite <- app_assoc.
Qed.

(** X18. The handlers of the chat only ever append to the transcript: after
    a question or a report, the transcript from before is an initial
    segment of the new one, with at most two messages after it for a
    question and at most one for a report. *)
Theorem data_chat_transcript_only_grows (w : AskAnswers) (r : ReportAnswers)
    (σ : Store State) :
  (∃ more, messages (comp (exec (sendMessage w) σ)) = messages (comp σ) ++ more
           ∧ (length more ≤ 2)%nat)
  ∧ (∃ more, messages (comp (exec (generateDataReport r) σ))
             = messages (comp σ) ++ more
             ∧ (length more ≤ 1)%nat).
Proof.
  split.
  - unfold exec, sendMessage. cbn.
    destruct (negb (JS.truthy (JS.trim (newMessage (comp σ))))); cbn.
    { exists []. by rewrite app_nil_r; split; [| cbn; lia]. }
    destruct (selectedDataSource (comp σ)) as [ds|]; cbn.
    2:{ exists []. by rewrite app_nil_r; split; [| cbn; lia]. }
    destruct (completion w); cbn; eexists [_; _]; by rewrite <- app_assoc.
  - unfold exec, generateDataReport. cbn.
    destruct (selectedDataSource (comp σ)) as [ds|]; cbn.
    2:{ exists []. by rewrite app_nil_r; split; [| cbn; lia]. }
    destruct (report r); cbn.
    + by eexists [_].
    + exists []. by rewrite app_nil_r; split; [| cbn; lia].
Qed.

(** X19. After a successful add the chat opens on the new data source: the
    effect on the new selection sets the transcript to the welcome message
    of the new data source and asks for the content at the URL that the
    storage upload returned. *)
Theorem chat_opens_on_the_uploaded_source (file : File.t) (w : UploadAnswers)
    (e : EffectAnswers) (σ : Store State) (u : User.t) (url : string)
    (x : Extracted) (a : Analysis.t) :
  me w = Ok u → uploaded w = Ok url → extracted w = Ok x → analysed w = Ok a →
  let new := newDataSource file u url a (now_id w) (now_date w) in
  let σ' := exec (handleFileUpload (Some setSelectedDataSource) (Some file) w) σ in
  let σ'' := exec (dataSourceEffect (selectedDataSource (comp σ')) e) σ' in
  messages (comp σ'') = [welcomeMessage new e]
  ∧ selectedDataSource (comp σ'') = Some new
  ∧ (url ≠ EmptyString →
     requests (world σ'') = requests (world σ') ++ [ExtractFromUrl url])
  ∧ (url = EmptyString → requests (world σ'') = requests (world σ')).
Proof.
  intros E1 E2 E3 E4 new σ' σ''.
  destruct (handleFileUpload_adds file w σ u url x a E1 E2 E3 E4) as (_ & Hs & _).
  fold new σ' in Hs.
  assert (H2 : σ'' = snd (dataSourceEffect (Some new) e σ')).
  { subst σ''. by rewrite Hs. }
  rewrite dataSourceEffect_run in H2. cbn in H2. rewrite H2. cbn.
  destruct url as [|c url]; cbn; split_and!; try done.
  all: by destruct (content e) as [[s|l]|err].
Qed.

End DataChatMore.


Lemma question_after_switch_witness :
  (DataSource.fileUrl Sample.ledger = None ∨ failed (DataChat.content Fixture.effect_answers))
  ∧ blank "What changed?" = false
  ∧ ∃ sent,
      requests (world (exec (DataChat.setSelectedDataSource Sample.ledger ;;
                             DataChat.dataSourceEffect (Some Sample.ledger)
                               Fixture.effect_answers ;;
                             DataChat.setNewMessage "What changed?" ;;
                             DataChat.sendMessage Sample.completion_rejected)
                         Fixture.reading))
      = sent ++ [GenerateText
                   (DataChat.askPrompt Sample.ledger "order,total" "What changed?")
                   500].
Proof.
  assert (H : DataSource.fileUrl Sample.ledger = None
              ∨ failed (DataChat.content Fixture.effect_answers)) by (by left).
  split; [exact H |]. split; [reflexivity |].
  destruct (question_after_switch_carries_the_previous_sample Sample.ledger
              Fixture.effect_answers "What changed?" Sample.completion_rejected
              Fixture.reading H eq_refl) as (sent & Hreq & _).
  exists sent. exact Hreq.
Defined.

Lemma chat_opens_on_the_uploaded_source_witness :
  DataChat.uploaded Sample.upload_ok = Ok "https://files.example.org/customers.csv"
  ∧ let σ' := exec (DataChat.handleFileUpload (Some DataChat.setSelectedDataSource)
                      (Some Sample.customers_csv) Sample.upload_ok)
                Sample.loaded in
    let σ'' := exec (DataChat.dataSourceEffect
                       (DataChat.selectedDataSource (comp σ'))
                       Fixture.effect_answers) σ' in
    length (DataChat.messages (comp σ'')) = 1%nat
    ∧ last (requests (world σ''))
      = Some (ExtractFromUrl "https://files.example.org/customers.csv").
Proof.
  split; [reflexivity |].
  destruct (chat_opens_on_the_uploaded_source Sample.customers_csv Sample.upload_ok
              Fixture.effect_answers Sample.loaded Sample.ada
              "https://files.example.org/customers.csv" (Text "id,name,email")
              Sample.roster eq_refl eq_refl eq_refl eq_refl)
    as (Hm & _ & Hr & _).
  cbv zeta. rewrite Hm, Hr by discriminate. split; [reflexivity |].
  apply last_snoc.
Defined.

(** ** More on the team chat *)

Section TeamChatMore.

Import ChatWorkspace TeamChat.

(** The run of a send with text, by the answer to the publication. *)
Lemma sendMessage_run (u : User.t) (w : SendAnswers) (σ : Store State) :
  blank (newMessage (comp σ)) = false →
  let sent :=
    with_messages
      (messages (comp σ)
       ++ [{| Message.id := JS.toString (send_now w 0%nat);
              Message.content := newMessage (comp σ);
              Message.userId := User.id u;
              Message.userName := senderName u;
              Message.timestamp := send_now w 1%nat;
              Message.type := user |}])
      (comp σ) in
  let asked := with_requests (requests (world σ) ++ [publication u σ]) (world σ) in
  sendMessage u w σ =
  (Ok tt,
   match published w with
   | Ok _ =>
       {| comp := with_newMessage EmptyString sent;
          world := if mentionsAssistant (newMessage (comp σ))
                   then with_timers
                          (timers (world σ)
                           ++ [(time (world σ) + 500,
                                ShowTyping (newMessage (comp σ)))])
                          asked
                   else asked |}
   | Throw e =>
       {| comp := sent;
          world := with_console
                     (console (world σ) ++ [("Failed to send message:", e)])
                     asked |}
   end).
Proof.
  intros Hblank. cbv zeta. unfold sendMessage, publication. cbn.
  rewrite trim_blank, Hblank. cbn.
  destruct (published w) as [[]|e]; cbn; [| done].
  by destruct (mentionsAssistant (newMessage (comp σ))).
Qed.

(** X20. A send of the team chat with an empty input or with white space
    only does nothing: no message is added, nothing is published, no timer
    is set. *)
Theorem team_send_without_text_does_nothing (u : User.t) (w : SendAnswers)
    (σ : Store State) :
  blank (newMessage (comp σ)) = true → sendMessage u w σ = (Ok tt, σ).
Proof.
  intros Hblank. unfold sendMessage. cbn. by rewrite trim_blank, Hblank.
Qed.

(** X21. When the publication of a team message is rejected, the message is
    in the transcript all the same and the input keeps its text; the error
    is logged, nothing is scheduled and no completion is requested. Sending
    again, with the publication rejected again, puts the same text in the
    transcript a second time. *)
Theorem team_send_with_rejected_publication_keeps_the_text (u : User.t)
    (w w2 : SendAnswers) (σ : Store State) (e e2 : Exn) :
  blank (newMessage (comp σ)) = false →
  published w = Throw e → published w2 = Throw e2 →
  let σ' := exec (sendMessage u w) σ in
  let σ'' := exec (sendMessage u w2) σ' in
  outcome (sendMessage u w) σ = Ok tt
  ∧ newMessage (comp σ') = newMessage (comp σ)
  ∧ timers (world σ') = timers (world σ)
  ∧ requests (world σ') = requests (world σ) ++ [publication u σ]
  ∧ console (world σ') = console (world σ) ++ [("Failed to send message:", e)]
  ∧ ∃ m m2, messages (comp σ') = messages (comp σ) ++ [m]
            ∧ messages (comp σ'') = messages (comp σ) ++ [m; m2]
            ∧ Message.content m = newMessage (comp σ)
            ∧ Message.content m2 = newMessage (comp σ)
            ∧ Message.type m = user ∧ Message.type m2 = user.
Proof.
  intros Hblank E1 E2 σ' σ''.
  pose proof (sendMessage_run u w σ Hblank) as H1. cbv zeta in H1.
  rewrite E1 in H1.
  assert (Hσ' : σ' = snd (sendMessage u w σ)) by done.
  rewrite H1 in Hσ'. cbn in Hσ'.
  assert (Hblank' : blank (newMessage (comp σ')) = false) by (by rewrite Hσ').
  pose proof (sendMessage_run u w2 σ' Hblank') as H2. cbv zeta in H2.
  rewrite E2 in H2.
  assert (Hσ'' : σ'' = snd (sendMessage u w2 σ')) by done.
  rewrite H2 in Hσ''. cbn in Hσ''.
  unfold outcome. rewrite H1, Hσ''. cbn. rewrite Hσ'. cbn.
  split_and!; try done.
  eexists _, _. rewrite <- app_assoc. by split_and!.
Qed.

(** X22. A team message that is published clears the input and adds the
    message of the user; it sets a timer, due 500 ms later, exactly when
    the text has one of the words ai, analyze or help in any case, also
    inside a longer word. No completion is requested by the send itself. *)
Theorem team_reply_is_scheduled_exactly_for_the_trigger_words (u : User.t)
    (w : SendAnswers) (σ : Store State) :
  blank (newMessage (comp σ)) = false →
  published w = Ok tt →
  let text := newMessage (comp σ) in
  let σ' := exec (sendMessage u w) σ in
  newMessage (comp σ') = EmptyString
  ∧ requests (world σ') = requests (world σ) ++ [publication u σ]
  ∧ (∃ m, messages (comp σ') = messages (comp σ) ++ [m]
          ∧ Message.content m = text ∧ Message.type m = user
          ∧ Message.userName m = senderName u)
  ∧ (calls_assistant text →
     timers (world σ') = timers (world σ) ++ [(time (world σ) + 500, ShowTyping text)])
  ∧ (¬ calls_assistant text → timers (world σ') = timers (world σ))
  ∧ (∀ pre post, calls_assistant (pre +:+ "ai" +:+ post)).
Proof.
  intros Hblank Hp text σ'.
  pose proof (sendMessage_run u w σ Hblank) as H1. cbv zeta in H1.
  rewrite Hp in H1.
  assert (Hσ' : σ' = snd (sendMessage u w σ)) by done.
  rewrite H1 in Hσ'. cbn in Hσ'. fold text in Hσ'.
  pose proof (mentionsAssistant_spec text) as Hspec. fold (calls_assistant text) in Hspec.
  rewrite Hσ'. cbn. split_and!; try done.
  - destruct (mentionsAssistant text); by cbn.
  - by eexists.
  - intros Hcall. apply Hspec in Hcall. by rewrite Hcall.
  - intros Hno. destruct (mentionsAssistant text); [| done].
    destruct Hno. by apply Hspec.
  - intros pre post. left. by exists pre, "ai", post.
Qed.

(** X23. A message from the realtime channel is appended when its kind is
    chat and ignored otherwise. The appended message takes its id, text,
    sender and time from the delivered one, with the name Unknown User when
    no display name comes with it and the type of a user message when no
    type comes with it. Nothing is compared with the transcript: a message
    that is delivered twice is in the transcript twice. *)
Theorem realtime_messages_are_appended_as_delivered (message : RealtimeMessage)
    (σ : Store State) :
  let σ' := exec (onRealtimeMessage message) σ in
  outcome (onRealtimeMessage message) σ = Ok tt
  ∧ world σ' = world σ
  ∧ (kind message ≠ "chat" → σ' = σ)
  ∧ (kind message = "chat" →
     ∃ m, messages (comp σ') = messages (comp σ) ++ [m]
          ∧ messages (comp (exec (onRealtimeMessage message) σ'))
            = messages (comp σ) ++ [m; m]
          ∧ Message.id m = id message
          ∧ Message.content m = content message
          ∧ Message.userId m = userId message
          ∧ Message.timestamp m = timestamp message
          ∧ (displayName message = None ∨ displayName message = Some EmptyString →
             Message.userName m = "Unknown User")
          ∧ (∀ c n, displayName message = Some (String c n) →
               Message.userName m = String c n)
          ∧ (type message = None → Message.type m = user)
          ∧ (∀ t, type message = Some t → Message.type m = t)).
Proof.
  cbv zeta. unfold exec, outcome, onRealtimeMessage.
  destruct (String.eqb (kind message) "chat") eqn:E; cbn.
  - apply String.eqb_eq in E. split_and!; [done | done | done |].
    intros _. eexists. split; [reflexivity |]. cbn.
    rewrite <- app_assoc. split_and!; try done.
    all: intros; repeat match goal with
                   | H : _ ∨ _ |- _ => destruct H
                   | H : _ = _ |- _ => rewrite H
                   end; done.
  - apply String.eqb_neq in E. by split_and!.
Qed.

(** X24. The transcript of the team chat is written in four places. A send,
    a timer and a delivery from the realtime channel each leave the
    transcript from before in place and add at most one message.
    [loadMessages], which the effect on the active channel calls, is the one
    place that discards messages: it replaces the transcript, whatever it
    held, by the four sample messages, and touches nothing else, so that
    the input, the typing flag and the pending timers stay as they are. *)
Theorem team_transcript_grows_until_the_channel_is_loaded (u : User.t)
    (w : SendAnswers) (f : Timer) (a : TimerAnswers) (message : RealtimeMessage)
    (now : nat → Z) (σ : Store State) :
  (∃ more, messages (comp (exec (sendMessage u w) σ)) = messages (comp σ) ++ more
           ∧ (length more ≤ 1)%nat)
  ∧ (∃ more, messages (comp (exec (fire f a) σ)) = messages (comp σ) ++ more
             ∧ (length more ≤ 1)%nat)
  ∧ (∃ more, messages (comp (exec (onRealtimeMessage message) σ))
             = messages (comp σ) ++ more
             ∧ (length more ≤ 1)%nat)
  ∧ (let σ' := exec (loadMessages now) σ in
     messages (comp σ') = sampleMessages now
     ∧ length (messages (comp σ')) = 4%nat
     ∧ (∀ m, m ∈ messages (comp σ') → Message.id m ∈ ["1"; "2"; "3"; "4"])
     ∧ newMessage (comp σ') = newMessage (comp σ)
     ∧ activeChannel (comp σ') = activeChannel (comp σ)
     ∧ isAiTyping (comp σ') = isAiTyping (comp σ)
     ∧ world σ' = world σ).
Proof.
  split_and!.
  - destruct (blank (newMessage (comp σ))) eqn:Hblank.
    + unfold exec. rewrite team_send_without_text_does_nothing by done.
      exists []. by rewrite app_nil_r; split; [| cbn; lia].
    + pose proof (sendMessage_run u w σ Hblank) as H1. cbv zeta in H1.
      unfold exec. rewrite H1. destruct (published w); cbn; by eexists [_].
  - unfold exec, fire, generateAIResponse. destruct f; cbn.
    + exists []. by rewrite app_nil_r; split; [| cbn; lia].
    + destruct (completion a); cbn; by eexists [_].
  - unfold exec, onRealtimeMessage.
    destruct (String.eqb (kind message) "chat"); cbn.
    + by eexists [_].
    + exists []. by rewrite app_nil_r; split; [| cbn; lia].
  - cbn. split_and!; try done.
    intros m Hm. repeat (apply elem_of_cons in Hm as [-> | Hm]; [set_solver |]).
    by apply elem_of_nil in Hm.
Qed.

End TeamChatMore.

Lemma team_send_without_text_witness :
  blank (ChatWorkspace.newMessage (comp Fixture.team_idle)) = true
  ∧ ChatWorkspace.sendMessage Sample.ada Sample.publish_ok Fixture.team_idle
    = (Ok tt, Fixture.team_idle).
Proof.
  split; [reflexivity |].
  by apply (team_send_without_text_does_nothing Sample.ada Sample.publish_ok
              Fixture.team_idle).
Defined.

Lemma team_send_with_rejected_publication_witness :
  (blank (ChatWorkspace.newMessage (comp Sample.team)) = false
   ∧ ChatWorkspace.published Sample.publish_rejected = Throw (Failure "offline"))
  ∧ let σ' := exec (ChatWorkspace.sendMessage Sample.ada Sample.publish_rejected)
                Sample.team in
    let σ'' := exec (ChatWorkspace.sendMessage Sample.ada Sample.publish_rejected) σ' in
    ChatWorkspace.newMessage (comp σ') = "Can someone HELP with the roster?"
    ∧ (Message.content <$> ChatWorkspace.messages (comp σ''))
      = ["Can someone HELP with the roster?"; "Can someone HELP with the roster?"].
Proof.
  split; [by split |].
  destruct (team_send_with_rejected_publication_keeps_the_text Sample.ada
              Sample.publish_rejected Sample.publish_rejected Sample.team
              (Failure "offline") (Failure "offline") eq_refl eq_refl eq_refl)
    as (_ & Hn & _ & _ & _ & (m & m2 & _ & Hm & Hc & Hc2 & _)).
  cbv zeta. rewrite Hn, Hm. cbn. by rewrite Hc, Hc2.
Defined.

Lemma team_reply_is_scheduled_witness :
  (blank (ChatWorkspace.newMessage (comp Fixture.team_plain)) = false
   ∧ ChatWorkspace.published Sample.publish_ok = Ok tt
   ∧ ¬ calls_assistant (ChatWorkspace.newMessage (comp Fixture.team_plain)))
  ∧ let σ' := exec (ChatWorkspace.sendMessage Sample.ada Sample.publish_ok)
                Fixture.team_plain in
    timers (world σ') = []
    ∧ ChatWorkspace.newMessage (comp σ') = EmptyString.
Proof.
  assert (Hno : ¬ calls_assistant (ChatWorkspace.newMessage (comp Fixture.team_plain))).
  { intros H. apply mentionsAssistant_spec in H. discriminate. }
  split; [by split_and! |].
  destruct (team_reply_is_scheduled_exactly_for_the_trigger_words Sample.ada
              Sample.publish_ok Fixture.team_plain eq_refl eq_refl)
    as (Hn & _ & _ & _ & Hplain & _).
  cbv zeta. by rewrite Hn, (Hplain Hno).
Defined.
